(** * go-socks4: the SOCKS4 / SOCKS4a client handshake of [socks4.go]

    A shallow embedding of [socks4.go] (package [socks4]) and the properties
    of its [Dial], [prepareRequest] and [parseAddr].

    Go values are modelled as follows.
    - [string] : a Go string, one [ascii] per byte.
    - [list byte] : a [[]byte] / [net.IP] / [bytes.Buffer] content.
    - [Z] : a Go [int] (64 bit); [uint16(x)] is written out as [x mod 2^16].
    - a pair [(v, option error)] : a Go result [(v, err)], [None] being [nil].
    - the calls that leave the package (the upstream dialer, the connection,
      the resolver) are recorded, in order, in a trace of [event]s. *)

From Stdlib Require Import ZArith List String Ascii Bool Lia.
From Stdlib Require Import Strings.Byte.
Import ListNotations.

Local Open Scope string_scope.
Local Open Scope list_scope.
Local Open Scope Z_scope.

(** ** Errors *)

(** An argument given to [WithArgs]: the code passes strings ([addr], [host])
    and one byte ([resp[1]]). *)
Inductive arg : Type :=
| ArgString (s : string)
| ArgByte (b : byte).

(** The errors that reach the package from outside it. *)
Inductive NumErrorKind : Type := ErrSyntax | ErrRange.

Inductive goerr : Type :=
| AddrError (Err Addr : string)                       (* net.AddrError *)
| NumError (Func Num : string) (Err : NumErrorKind)   (* strconv.NumError *)
| io_EOF
| io_ErrShortWrite
| io_ErrUnexpectedEOF
| Foreign (msg : string).   (* an error of the dialer, the connection or the resolver *)

(** [typedErrors.String]: a message template, which [WithArgs] completes with
    arguments and [Wrap] with an underlying cause. *)
Module typedErrors.

Record t : Type := mk {
  template : string;
  args : list arg;
  cause : option goerr
}.

Definition String (template : string) : t :=
  mk template [] None.

Definition WithArgs (e : t) (a : list arg) : t :=
  mk (template e) a (cause e).

Definition Wrap (e : t) (err : goerr) : t :=
  mk (template e) (args e) (Some err).

(** [Is e k]: [e] is the error constant [k], whatever it carries. *)
Definition Is (e k : t) : Prop := template e = template k.

End typedErrors.

Definition error : Type := typedErrors.t.

(** ** Constants (lines 17-42) *)

Definition socksVersion : byte := x04.
Definition socksConnect : byte := x01.
Definition socksBind : byte := x02.

Definition accessGranted : byte := x5a.
Definition accessRejected : byte := x5b.
Definition accessIdentRequired : byte := x5c.
Definition accessIdentFailed : byte := x5d.

Definition minRequestLen : Z := 8.

Definition ErrWrongNetwork := typedErrors.String "network should be tcp or tcp4".
Definition ErrDialFailed := typedErrors.String "socks4 dial".
Definition ErrWrongAddr := typedErrors.String "wrong addr: %s".
Definition ErrConnRejected := typedErrors.String "connection to remote host was rejected".
Definition ErrIdentRequired := typedErrors.String "valid ident required".
Definition ErrIO := typedErrors.String "i\o error".
Definition ErrHostUnknown := typedErrors.String "unable to find IP address of host %s".
Definition ErrInvalidResponse := typedErrors.String "unknown socks4 server response %v".

(** The initial value of the package variable [Ident]. *)
Definition default_Ident : string := "nobody@0.0.0.0".

(** ** The standard library functions the package calls *)

(** [s[i:j]] and [s[i:]]. *)
Definition slice (s : string) (i j : nat) : string := substring i (j - i) s.
Definition slice_from (s : string) (i : nat) : string := substring i (String.length s - i) s.

(** [bytealg.IndexByteString]: the first index of [c] in [s]. *)
Fixpoint IndexByteString (s : string) (c : ascii) : option nat :=
  match s with
  | EmptyString => None
  | String a s' =>
      if Ascii.eqb a c then Some 0%nat
      else option_map S (IndexByteString s' c)
  end.

(** [bytealg.LastIndexByteString]: the last index of [c] in [s]. *)
Fixpoint LastIndexByteString (s : string) (c : ascii) : option nat :=
  match s with
  | EmptyString => None
  | String a s' =>
      match LastIndexByteString s' c with
      | Some i => Some (S i)
      | None => if Ascii.eqb a c then Some 0%nat else None
      end
  end.

Definition has_byte (s : string) (c : ascii) : bool :=
  match IndexByteString s c with Some _ => true | None => false end.

(** [net.SplitHostPort], statement by statement. *)
Definition SplitHostPort (hostport : string) : string * string * option goerr :=
  let missingPort := "missing port in address" in
  let tooManyColons := "too many colons in address" in
  let addrErr (addr why : string) := ("", "", Some (AddrError why addr)) in
  match LastIndexByteString hostport ":" with
  | None => addrErr hostport missingPort
  | Some i =>
      let bracketed :=
        match String.get 0 hostport with
        | Some c => Ascii.eqb c "["
        | None => false
        end in
      let finish (host : string) (j k : nat) :=
        if has_byte (slice_from hostport j) "[" then
          addrErr hostport "unexpected '[' in address"
        else if has_byte (slice_from hostport k) "]" then
          addrErr hostport "unexpected ']' in address"
        else (host, slice_from hostport (i + 1), None) in
      if bracketed then
        match IndexByteString hostport "]" with
        | None => addrErr hostport "missing ']' in address"
        | Some e =>
            if Nat.eqb (e + 1) (String.length hostport) then
              addrErr hostport missingPort
            else if Nat.eqb (e + 1) i then
              finish (slice hostport 1 e) 1%nat (e + 1)%nat
            else
              match String.get (e + 1) hostport with
              | Some ":"%char => addrErr hostport tooManyColons
              | _ => addrErr hostport missingPort
              end
        end
      else
        let host := slice hostport 0 i in
        if has_byte host ":" then addrErr hostport tooManyColons
        else finish host 0%nat 0%nat
  end.

(** [strconv.Atoi] on a 64-bit platform: an optional sign, then one or more
    decimal digits; the value must fit an [int]. *)
Definition is_digit (c : ascii) : bool :=
  (48 <=? nat_of_ascii c)%nat && (nat_of_ascii c <=? 57)%nat.

Fixpoint digits_value (acc : Z) (s : string) : option Z :=
  match s with
  | EmptyString => Some acc
  | String c s' =>
      if is_digit c
      then digits_value (acc * 10 + Z.of_nat (nat_of_ascii c - 48)) s'
      else None
  end.

Definition Atoi (s : string) : Z * option goerr :=
  let syntaxError := (0, Some (NumError "Atoi" s ErrSyntax)) in
  let rangeError (v : Z) := (v, Some (NumError "Atoi" s ErrRange)) in
  match s with
  | EmptyString => syntaxError
  | String c rest =>
      let neg := Ascii.eqb c "-" in
      let body := if Ascii.eqb c "+" || neg then rest else s in
      match body with
      | EmptyString => syntaxError
      | _ =>
          match digits_value 0 body with
          | None => syntaxError
          | Some un =>
              let cutoff := 2 ^ 63 in
              if negb neg && (cutoff <=? un) then rangeError (cutoff - 1)
              else if neg && (cutoff <? un) then rangeError (- cutoff)
              else (if neg then - un else un, None)
          end
      end
  end.

(** [net.IP], [net.IPv4] and [IP.To4]. *)
Definition IP : Type := list byte.

Definition v4InV6Prefix : list byte :=
  [x00; x00; x00; x00; x00; x00; x00; x00; x00; x00; xff; xff].

Definition IPv4 (a b c d : byte) : IP := v4InV6Prefix ++ [a; b; c; d].

Definition isZeros (p : list byte) : bool :=
  forallb (fun b => Byte.eqb b x00) p.

Definition To4 (ip : IP) : IP :=
  if Nat.eqb (List.length ip) 4 then ip
  else if Nat.eqb (List.length ip) 16
          && isZeros (firstn 10 ip)
          && Byte.eqb (nth 10 ip x00) xff
          && Byte.eqb (nth 11 ip x00) xff
       then skipn 12 ip
       else [].

(** [uint16(port)] and [binary.Write(&buf, binary.BigEndian, v)] for a [uint16]. *)
Definition uint16 (x : Z) : Z := x mod 2 ^ 16.

Definition byte_of_Z (z : Z) : byte :=
  match Byte.of_N (Z.to_N (z mod 256)) with
  | Some b => b
  | None => x00
  end.

Definition BigEndian_uint16 (v : Z) : list byte :=
  [byte_of_Z (Z.shiftr v 8); byte_of_Z (Z.land v 255)].

(** [[]byte(s)]. *)
Definition bytes_of_string (s : string) : list byte := list_byte_of_string s.

(** ** The collaborators and the trace of their calls *)

(** A [net.Conn], by what it answers to the one [Write], the one [Read] and the
    [Close] that [Dial] can make: [conn_Write p] is the count and the error of
    [Write(p)]; [conn_Read] is the bytes the peer has sent and the error the
    read reports with them; [conn_id] tells connections apart. *)
Record Conn : Type := {
  conn_id : nat;
  conn_Write : list byte -> Z * option goerr;
  conn_Read : list byte * option goerr;
  conn_Close : option goerr
}.

(** [proxy.Dialer]: one method, [Dial(network, addr) (net.Conn, error)]. *)
Record Dialer : Type := {
  Dialer_Dial : string -> string -> Conn + goerr
}.

(** [url.URL], as far as the package reads it. *)
Record URL : Type := {
  Scheme : string;
  Host : string
}.

(** [type socks4 struct] (lines 54-57). *)
Record socks4 : Type := {
  url : URL;
  dialer : Dialer
}.

(** What the package reads from its process: the package variable [Ident] and
    the system resolver behind [net.ResolveIPAddr]. *)
Record World : Type := {
  Ident : string;
  ResolveIPAddr : string -> string -> IP + goerr
}.

Inductive event : Type :=
| EvDial (network addr : string)      (* s.dialer.Dial(network, addr) *)
| EvResolve (network host : string)   (* net.ResolveIPAddr(network, host) *)
| EvWrite (id : nat) (p : list byte)  (* c.Write(p) *)
| EvRead (id : nat) (len : nat)       (* c.Read(buf), len(buf) = len *)
| EvClose (id : nat).                 (* c.Close() *)

(** A computation reads the [World] and yields a value and the calls made. *)
Definition M (A : Type) : Type := World -> A * list event.

Definition ret {A} (a : A) : M A := fun _ => (a, []).

Definition bind {A B} (m : M A) (f : A -> M B) : M B :=
  fun w =>
    let (a, t1) := m w in
    let (b, t2) := f a w in
    (b, t1 ++ t2).

Declare Scope go_scope.
Delimit Scope go_scope with go.
Notation "x <- m ;; k" := (bind m (fun x => k))
  (at level 61, m at next level, right associativity) : go_scope.
Notation "' p <- m ;; k" := (bind m (fun x => match x with p => k end))
  (at level 61, p pattern, m at next level, right associativity) : go_scope.
Local Open Scope go_scope.

Definition emit (e : event) : M unit := fun _ => (tt, [e]).
Definition ask : M World := fun w => (w, []).

Definition call_Dial (d : Dialer) (network addr : string) : M (Conn + goerr) :=
  _ <- emit (EvDial network addr) ;;
  ret (Dialer_Dial d network addr).

Definition call_ResolveIPAddr (network host : string) : M (IP + goerr) :=
  w <- ask ;;
  _ <- emit (EvResolve network host) ;;
  ret (ResolveIPAddr w network host).

Definition call_Write (c : Conn) (p : list byte) : M (Z * option goerr) :=
  _ <- emit (EvWrite (conn_id c) p) ;;
  ret (conn_Write c p).

(** [c.Read(buf)]: at most [len(buf)] bytes are copied to the front of [buf]. *)
Definition call_Read (c : Conn) (buf : list byte) : M (Z * list byte * option goerr) :=
  _ <- emit (EvRead (conn_id c) (List.length buf)) ;;
  let got := firstn (List.length buf) (fst (conn_Read c)) in
  ret (Z.of_nat (List.length got),
       got ++ skipn (List.length got) buf,
       snd (conn_Read c)).

Definition call_Close (c : Conn) : M (option goerr) :=
  _ <- emit (EvClose (conn_id c)) ;;
  ret (conn_Close c).

(** ** The package's functions *)

(** [isSocks4a] (lines 152-154). *)
Definition isSocks4a (s : socks4) : bool :=
  String.eqb (Scheme (url s)) "socks4a".

(** [parseAddr] (lines 156-169). *)
Definition parseAddr (s : socks4) (addr : string) : string * Z * option error :=
  let '(host, port, err) := SplitHostPort addr in
  match err with
  | Some err =>
      ("", 0, Some (typedErrors.Wrap
                      (typedErrors.WithArgs ErrWrongAddr [ArgString addr]) err))
  | None =>
      let '(iport, err) := Atoi port in
      match err with
      | Some err =>
          ("", 0, Some (typedErrors.Wrap
                          (typedErrors.WithArgs ErrWrongAddr [ArgString addr]) err))
      | None => (host, iport, None)
      end
  end.

(** [lookupAddr] (lines 109-116). *)
Definition lookupAddr (s : socks4) (host : string) : M (IP * option error) :=
  r <- call_ResolveIPAddr "ip4" host ;;
  match r with
  | inr err =>
      ret ([], Some (typedErrors.Wrap
                       (typedErrors.WithArgs ErrHostUnknown [ArgString host]) err))
  | inl ip => ret (To4 ip, None)
  end.

(** [prepareRequest] (lines 118-150). The [err] that [parseAddr] returns on
    line 124 is assigned and not read again: in socks4 mode line 133
    overwrites it, and line 149 returns [nil] for it. *)
Definition prepareRequest (s : socks4) (addr : string) : M (list byte * option error) :=
  let '(host, port, err) := parseAddr s addr in                      (* 124 *)
  let buf := [socksVersion; socksConnect] in                         (* 126 *)
  let buf := buf ++ BigEndian_uint16 (uint16 port) in                (* 127 *)
  let ip := IPv4 x00 x00 x00 x01 in                                  (* 130 *)
  (* lines 139-149, for the [ip] that lines 130-137 leave *)
  let rest (ip : IP) : M (list byte * option error) :=
    w <- ask ;;
    let buf := buf ++ To4 ip in                                      (* 139 *)
    let buf := buf ++ bytes_of_string (Ident w) in                   (* 140 *)
    let buf := buf ++ [x00] in                                       (* 142 *)
    let buf :=
      if isSocks4a s                                                 (* 144 *)
      then (buf ++ bytes_of_string host) ++ [x00]                    (* 145-146 *)
      else buf in
    ret (buf, None)                                                  (* 149 *)
  in
  if negb (isSocks4a s) then                                         (* 132 *)
    '(ip, err) <- lookupAddr s host ;;                               (* 133 *)
    match err with
    | Some err => ret ([], Some err)                                 (* 135 *)
    | None => rest ip
    end
  else rest ip.

(** [Dial], lines 89-106: the reply is read and its status byte interpreted. *)
Definition Dial_reply (c : Conn) : M (option Conn * option error) :=
  let resp := repeat x00 8 in                                        (* 89 *)
  '(i, resp, err) <- call_Read c resp ;;                             (* 90 *)
  match err with
  | Some io_EOF | None =>
      if negb (i =? 8) then                                          (* 93 *)
        ret (Some c, Some (typedErrors.Wrap ErrIO io_ErrUnexpectedEOF))
      else
        match nth 1 resp x00 with                                    (* 97 *)
        | x5a => ret (Some c, None)                                  (* accessGranted *)
        | x5c | x5d => ret (Some c, Some ErrIdentRequired)           (* accessIdentRequired, accessIdentFailed *)
        | x5b => ret (Some c, Some ErrConnRejected)                  (* accessRejected *)
        | b => ret (Some c, Some (typedErrors.WithArgs ErrInvalidResponse [ArgByte b]))
        end
  | Some err => ret (Some c, Some (typedErrors.Wrap ErrIO err))      (* 91-92 *)
  end.

(** [Dial], lines 76-87, then [Dial_reply]: the request is built and written. *)
Definition Dial_request (s : socks4) (c : Conn) (addr : string)
  : M (option Conn * option error) :=
  '(req, err) <- prepareRequest s addr ;;                            (* 76 *)
  match err with
  | Some err => ret (Some c, Some err)                               (* 78 *)
  | None =>
      '(i, err) <- call_Write c req ;;                               (* 82 *)
      match err with
      | Some err => ret (Some c, Some (typedErrors.Wrap ErrIO err))  (* 84 *)
      | None =>
          if i <? minRequestLen then                                 (* 85 *)
            ret (Some c, Some (typedErrors.Wrap ErrIO io_ErrShortWrite))
          else Dial_reply c
      end
  end.

(** The function deferred on lines 70-74: it runs when [Dial] returns, on the
    results being returned. *)
Definition Dial_deferred (c : Conn) (r : option Conn * option error)
  : M (option Conn * option error) :=
  match snd r with
  | Some _ => _ <- call_Close c ;; ret r                             (* 71-72 *)
  | None => ret r
  end.

(** [Dial] (lines 60-107). *)
Definition Dial (s : socks4) (network addr : string) : M (option Conn * option error) :=
  if negb (String.eqb network "tcp") && negb (String.eqb network "tcp4") then   (* 61 *)
    ret (None, Some ErrWrongNetwork)
  else
    r <- call_Dial (dialer s) network (Host (url s)) ;;              (* 65 *)
    match r with
    | inr err => ret (None, Some (typedErrors.Wrap ErrDialFailed err)) (* 67 *)
    | inl c =>
        r <- Dial_request s c addr ;;
        Dial_deferred c r
    end.

(** ** Fixtures: mock proxies and processes *)

Definition reply (status : byte) : list byte :=
  [x00; status; x00; x50; x7f; x00; x00; x01].

(** A connection that takes every write whole and answers [data], [err]. *)
Definition mockConn (data : list byte) (err : option goerr) : Conn :=
  {| conn_id := 1;
     conn_Write := fun p => (Z.of_nat (List.length p), None);
     conn_Read := (data, err);
     conn_Close := None |}.

Definition mockDialer (c : Conn) : Dialer :=
  {| Dialer_Dial := fun _ _ => inl c |}.

Definition mockSocks (scheme : string) (c : Conn) : socks4 :=
  {| url := {| Scheme := scheme; Host := "127.0.0.1:1080" |};
     dialer := mockDialer c |}.

(** A resolver that knows one host; for the empty host it answers as
    [net.ResolveIPAddr] does, with no error and an address of no bytes. *)
Definition mockResolve (network host : string) : IP + goerr :=
  if String.eqb host "example.com" then inl [x5d; xb8; xd8; x22]
  else if String.eqb host "" then inl []
  else inr (Foreign "no such host").

Definition mockWorld : World :=
  {| Ident := default_Ident; ResolveIPAddr := mockResolve |}.

(** A proxy that grants the connection. *)
Definition grantingConn : Conn := mockConn (reply x5a) None.

(** A connection whose [Write] reports 8 bytes taken, whatever it is given. *)
Definition truncatingConn : Conn :=
  {| conn_id := 1;
     conn_Write := fun _ => (8, None);
     conn_Read := (reply x5a, None);
     conn_Close := None |}.

(** A second process: the same [Ident], a resolver that agrees with
    [mockResolve] on "example.com" only. *)
Definition otherWorld : World :=
  {| Ident := "nobody@0.0.0.0";
     ResolveIPAddr := fun _ host =>
       if String.eqb host "example.com" then inl [x5d; xb8; xd8; x22]
       else inr (Foreign "resolver down") |}.

Definition otherSocks : socks4 :=
  {| url := {| Scheme := "socks4"; Host := "10.0.0.1:9050" |};
     dialer := {| Dialer_Dial := fun _ _ => inr (Foreign "unreachable") |} |}.

(** The templates of the errors that [Dial] returns (lines 62-105, 112). *)
Definition Dial_errors : list string :=
  map typedErrors.template
    [ErrWrongNetwork; ErrDialFailed; ErrHostUnknown; ErrIO;
     ErrIdentRequired; ErrConnRejected; ErrInvalidResponse].

(** ** The registration of the schemes (lines 44-52) *)

(** What [proxy.RegisterDialerType] takes: a function from the proxy URL and
    the upstream dialer to the dialer for the scheme. *)
Definition DialerType : Type := URL -> Dialer -> socks4 * option error.

(** The table of [proxy]: the entry registered last for a scheme is the one
    in force. *)
Definition proxySchemes : Type := list (string * DialerType).

Definition RegisterDialerType (scheme : string) (f : DialerType)
  (m : proxySchemes) : proxySchemes :=
  (scheme, f) :: m.

Fixpoint lookupScheme (m : proxySchemes) (scheme : string) : option DialerType :=
  match m with
  | [] => None
  | (k, f) :: m' => if String.eqb k scheme then Some f else lookupScheme m' scheme
  end.

(** [init] (lines 44-52). *)
Definition init (m : proxySchemes) : proxySchemes :=
  let m := RegisterDialerType "socks4"
             (fun u d => ({| url := u; dialer := d |}, None)) m in
  RegisterDialerType "socks4a"
    (fun u d => ({| url := u; dialer := d |}, None)) m.

(** ** Reading a request back *)

(** The value of a byte, and [binary.BigEndian.Uint16]. *)
Definition Z_of_byte (b : byte) : Z := Z.of_N (Byte.to_N b).

Definition BigEndian_Uint16 (b : list byte) : Z :=
  Z.lor (Z.shiftl (Z_of_byte (nth 0 b x00)) 8) (Z_of_byte (nth 1 b x00)).

(** A connection whose [Write] fails after taking [n] bytes. *)
Definition brokenConn (n : Z) : Conn :=
  {| conn_id := 2;
     conn_Write := fun _ => (n, Some (Foreign "broken pipe"));
     conn_Read := (reply x5a, None);
     conn_Close := Some (Foreign "already closed") |}.

(** ** The functions on concrete inputs *)

Example SplitHostPort_plain :
  SplitHostPort "example.com:80" = ("example.com", "80", None).
Proof. reflexivity. Qed.

Example SplitHostPort_bracketed :
  SplitHostPort "[::1]:80" = ("::1", "80", None).
Proof. reflexivity. Qed.

Example SplitHostPort_no_port :
  SplitHostPort "example.com"
  = ("", "", Some (AddrError "missing port in address" "example.com")).
Proof. reflexivity. Qed.

Example SplitHostPort_colons :
  SplitHostPort "a:b:80"
  = ("", "", Some (AddrError "too many colons in address" "a:b:80")).
Proof. reflexivity. Qed.

Example Atoi_values :
  Atoi "80" = (80, None) /\ Atoi "+80" = (80, None) /\ Atoi "-1" = (-1, None)
  /\ Atoi "0" = (0, None) /\ Atoi "70000" = (70000, None).
Proof. repeat split; reflexivity. Qed.

Example Atoi_errors :
  Atoi "" = (0, Some (NumError "Atoi" "" ErrSyntax))
  /\ Atoi "http" = (0, Some (NumError "Atoi" "http" ErrSyntax))
  /\ Atoi "9223372036854775808"
     = (9223372036854775807, Some (NumError "Atoi" "9223372036854775808" ErrRange)).
Proof. repeat split; reflexivity. Qed.

Example To4_of_IPv4 : To4 (IPv4 x00 x00 x00 x01) = [x00; x00; x00; x01].
Proof. reflexivity. Qed.

Example port_80 : BigEndian_uint16 (uint16 80) = [x00; x50].
Proof. reflexivity. Qed.

Example port_70000 : BigEndian_uint16 (uint16 70000) = [x11; x70].
Proof. reflexivity. Qed.

Example Dial_granted :
  Dial (mockSocks "socks4a" grantingConn) "tcp" "example.com:80" mockWorld
  = ((Some grantingConn, None),
     [EvDial "tcp" "127.0.0.1:1080";
      EvWrite 1 ([x04; x01; x00; x50; x00; x00; x00; x01]
                   ++ bytes_of_string "nobody@0.0.0.0" ++ [x00]
                   ++ bytes_of_string "example.com" ++ [x00]);
      EvRead 1 8]).
Proof. reflexivity. Qed.

Example Dial_rejected :
  Dial (mockSocks "socks4" (mockConn (reply x5b) None)) "tcp" "example.com:80" mockWorld
  = ((Some (mockConn (reply x5b) None), Some ErrConnRejected),
     [EvDial "tcp" "127.0.0.1:1080";
      EvResolve "ip4" "example.com";
      EvWrite 1 ([x04; x01; x00; x50; x5d; xb8; xd8; x22]
                   ++ bytes_of_string "nobody@0.0.0.0" ++ [x00]);
      EvRead 1 8;
      EvClose 1]).
Proof. reflexivity. Qed.

(** ** Equations of the functions, by stage *)

Ltac run :=
  cbv beta iota zeta delta
    [bind ret emit ask call_Dial call_ResolveIPAddr call_Write call_Read
     call_Close fst snd negb];
  cbn [app].

(** [To4] yields four bytes or none, and leaves its own results alone:
    [lookupAddr] applies it on line 115 and [prepareRequest] again on line 139. *)
Lemma To4_length ip : List.length (To4 ip) = 4%nat \/ To4 ip = [].
Proof.
  unfold To4.
  destruct (Nat.eqb (List.length ip) 4) eqn:E4.
  - left. now apply Nat.eqb_eq.
  - destruct (Nat.eqb (List.length ip) 16) eqn:E16; cbn [andb]; [| now right].
    destruct (isZeros (firstn 10 ip) && Byte.eqb (nth 10 ip x00) xff
              && Byte.eqb (nth 11 ip x00) xff); [| now right].
    left. apply Nat.eqb_eq in E16. rewrite length_skipn, E16. reflexivity.
Qed.

Lemma To4_idem ip : To4 (To4 ip) = To4 ip.
Proof.
  destruct (To4_length ip) as [H | H].
  - unfold To4 at 1. now rewrite H.
  - rewrite H. reflexivity.
Qed.

(** The request that [prepareRequest] builds in socks4a mode. *)
Lemma prepareRequest_socks4a s addr w host port err :
  parseAddr s addr = (host, port, err) ->
  isSocks4a s = true ->
  prepareRequest s addr w =
    (([x04; x01] ++ BigEndian_uint16 (uint16 port) ++ [x00; x00; x00; x01]
        ++ bytes_of_string (Ident w) ++ [x00]
        ++ bytes_of_string host ++ [x00], None), []).
Proof.
  intros Hp Ha. unfold prepareRequest. rewrite Hp, Ha. run.
  change (To4 (IPv4 x00 x00 x00 x01)) with [x00; x00; x00; x01].
  unfold socksVersion, socksConnect, BigEndian_uint16.
  rewrite <- ?app_assoc. reflexivity.
Qed.

(** What [prepareRequest] does in socks4 mode, by the resolver's answer. *)
Lemma prepareRequest_socks4 s addr w host port err :
  parseAddr s addr = (host, port, err) ->
  isSocks4a s = false ->
  prepareRequest s addr w =
    (match ResolveIPAddr w "ip4" host with
     | inl ip =>
         ([x04; x01] ++ BigEndian_uint16 (uint16 port) ++ To4 ip
            ++ bytes_of_string (Ident w) ++ [x00], None)
     | inr e =>
         ([], Some (typedErrors.Wrap
                      (typedErrors.WithArgs ErrHostUnknown [ArgString host]) e))
     end, [EvResolve "ip4" host]).
Proof.
  intros Hp Ha. unfold prepareRequest, lookupAddr. rewrite Hp, Ha. run.
  destruct (ResolveIPAddr w "ip4" host) as [ip | e]; run; [| reflexivity].
  unfold socksVersion, socksConnect, BigEndian_uint16.
  rewrite <- ?app_assoc, To4_idem. reflexivity.
Qed.

(** [prepareRequest] calls nothing but the resolver, and at most once. *)
Lemma prepareRequest_trace s addr w :
  snd (prepareRequest s addr w) = [] \/
  exists host, snd (prepareRequest s addr w) = [EvResolve "ip4" host].
Proof.
  destruct (parseAddr s addr) as [[host port] err] eqn:Hp.
  destruct (isSocks4a s) eqn:Ha.
  - left. now rewrite (prepareRequest_socks4a _ _ _ _ _ _ Hp Ha).
  - right. exists host. now rewrite (prepareRequest_socks4 _ _ _ _ _ _ Hp Ha).
Qed.

(** The reply stage makes one call, a read into 8 bytes, and hands back the
    connection it was given. *)
Lemma Dial_reply_shape c w :
  snd (Dial_reply c w) = [EvRead (conn_id c) 8] /\
  fst (fst (Dial_reply c w)) = Some c.
Proof.
  unfold Dial_reply, call_Read. destruct (conn_Read c) as [data rerr]. run.
  destruct rerr as [[] |];
    try (split; reflexivity);
    match goal with |- context [Z.eqb ?a ?b] => destruct (Z.eqb a b) end;
    try (split; reflexivity);
    match goal with |- context [nth 1 ?l x00] => destruct (nth 1 l x00) end;
    split; reflexivity.
Qed.

(** A reply of fewer than 8 bytes is an [ErrIO]; the status byte is not read. *)
Lemma Dial_reply_short c w data rerr :
  conn_Read c = (data, rerr) ->
  (List.length data < 8)%nat ->
  fst (Dial_reply c w) =
    (Some c,
     Some (typedErrors.Wrap ErrIO
             match rerr with
             | None | Some io_EOF => io_ErrUnexpectedEOF
             | Some e => e
             end)).
Proof.
  intros Hr Hlen. unfold Dial_reply, call_Read. rewrite Hr. run.
  assert (Hi : (Z.of_nat (List.length (firstn (List.length (repeat x00 8)) data)) =? 8) = false).
  { apply Z.eqb_neq. rewrite length_firstn, repeat_length. lia. }
  rewrite Hi.
  destruct rerr as [[] |]; reflexivity.
Qed.

(** A reply of 8 bytes, read without an error other than [io.EOF], is judged
    by its second byte. *)
Lemma Dial_reply_full c w data rerr :
  conn_Read c = (data, rerr) ->
  (8 <= List.length data)%nat ->
  rerr = None \/ rerr = Some io_EOF ->
  fst (Dial_reply c w) =
    (Some c,
     match nth 1 data x00 with
     | x5a => None
     | x5b => Some ErrConnRejected
     | x5c | x5d => Some ErrIdentRequired
     | b => Some (typedErrors.WithArgs ErrInvalidResponse [ArgByte b])
     end).
Proof.
  intros Hr Hlen Herr. unfold Dial_reply, call_Read. rewrite Hr.
  do 8 (destruct data as [| ? data]; [cbn in Hlen; lia |]).
  cbn [repeat List.length firstn skipn app nth fst snd].
  run.
  destruct Herr as [-> | ->]; cbn [Z.of_nat Pos.of_succ_nat Pos.succ Z.eqb Pos.eqb];
    match goal with |- context [nth 1 ?l x00] => destruct (nth 1 l x00) eqn:E end;
    cbn in E; subst; reflexivity.
Qed.

(** Once the request is built and written without error, the count written is
    compared with [minRequestLen] and with nothing else. *)
Lemma Dial_request_written s c addr w req n :
  fst (prepareRequest s addr w) = (req, None) ->
  conn_Write c req = (n, None) ->
  Dial_request s c addr w =
    if n <? minRequestLen then
      ((Some c, Some (typedErrors.Wrap ErrIO io_ErrShortWrite)),
       snd (prepareRequest s addr w) ++ [EvWrite (conn_id c) req])
    else
      (fst (Dial_reply c w),
       snd (prepareRequest s addr w)
         ++ EvWrite (conn_id c) req :: snd (Dial_reply c w)).
Proof.
  intros Hp Hw. unfold Dial_request, call_Write.
  destruct (prepareRequest s addr w) as [[req' e] tr] eqn:Hq.
  cbn in Hp. injection Hp as -> ->.
  unfold bind at 1. rewrite Hq. run. rewrite Hw.
  destruct (n <? minRequestLen); [reflexivity |].
  destruct (Dial_reply c w) as [r tr']. reflexivity.
Qed.

(** Whatever happens after the transport is acquired, the connection handed
    back is the acquired one, and the stages themselves do not close it. *)
Lemma Dial_request_shape s c addr w :
  fst (fst (Dial_request s c addr w)) = Some c /\
  forall id, ~ In (EvClose id) (snd (Dial_request s c addr w)).
Proof.
  assert (Hpt : forall id, ~ In (EvClose id) (snd (prepareRequest s addr w))).
  { intros id. destruct (prepareRequest_trace s addr w) as [-> | [h ->]];
      cbn; intuition discriminate. }
  destruct (prepareRequest s addr w) as [[req [e |]] tr] eqn:Hq.
  - unfold Dial_request. run. rewrite Hq. run.
    split; [reflexivity |]. intros id. rewrite app_nil_r. apply (Hpt id).
  - destruct (conn_Write c req) as [n [e |]] eqn:Hw.
    + unfold Dial_request, call_Write. run. rewrite Hq. run.
      rewrite Hw. run. split; [reflexivity |].
      intros id Hin. apply in_app_or in Hin. destruct Hin as [Hin | Hin].
      * apply (Hpt id Hin).
      * cbn in Hin. intuition discriminate.
    + rewrite (Dial_request_written s c addr w req n); [| now rewrite Hq | exact Hw].
      rewrite Hq. cbn [snd].
      destruct (Dial_reply_shape c w) as [Htr Hc].
      destruct (n <? minRequestLen); cbn [fst snd].
      * split; [reflexivity |].
        intros id Hin. apply in_app_or in Hin. destruct Hin as [Hin | Hin].
        -- apply (Hpt id Hin).
        -- cbn in Hin. intuition discriminate.
      * split; [exact Hc |].
        intros id Hin. apply in_app_or in Hin. destruct Hin as [Hin | Hin].
        -- apply (Hpt id Hin).
        -- rewrite Htr in Hin. cbn in Hin. intuition discriminate.
Qed.

(** [Dial] once the network is accepted and the upstream dialer has answered
    with a connection: the stages run, then the deferred function. *)
Lemma Dial_connected s network addr w c :
  network = "tcp" \/ network = "tcp4" ->
  Dialer_Dial (dialer s) network (Host (url s)) = inl c ->
  Dial s network addr w =
    (fst (Dial_request s c addr w),
     EvDial network (Host (url s))
       :: snd (Dial_request s c addr w)
       ++ match snd (fst (Dial_request s c addr w)) with
          | Some _ => [EvClose (conn_id c)]
          | None => []
          end).
Proof.
  intros Hn Hd. unfold Dial, call_Dial, Dial_deferred, call_Close.
  assert (Hne : negb (String.eqb network "tcp") && negb (String.eqb network "tcp4") = false).
  { destruct Hn as [-> | ->]; reflexivity. }
  rewrite Hne. run. rewrite Hd.
  destruct (Dial_request s c addr w) as [[r e] tr].
  destruct e; reflexivity.
Qed.

(** ** The errors [parseAddr] and [Dial] can return *)

(** [parseAddr] fails exactly when [net.SplitHostPort] or [strconv.Atoi] does,
    and its error is then [ErrWrongAddr] completed with [addr] itself. *)
Lemma parseAddr_error s addr :
  (snd (SplitHostPort addr) <> None \/
   snd (Atoi (snd (fst (SplitHostPort addr)))) <> None) ->
  exists cause,
    parseAddr s addr =
      ("", 0, Some (typedErrors.Wrap
                      (typedErrors.WithArgs ErrWrongAddr [ArgString addr]) cause)).
Proof.
  unfold parseAddr.
  destruct (SplitHostPort addr) as [[host port] [e |]]; cbn [fst snd].
  - intros _. now exists e.
  - intros [H | H]; [now elim H |].
    destruct (Atoi port) as [iport [e |]]; cbn [snd] in H.
    + now exists e.
    + now elim H.
Qed.

Lemma parseAddr_ok s addr host port iport :
  SplitHostPort addr = (host, port, None) ->
  Atoi port = (iport, None) ->
  parseAddr s addr = (host, iport, None).
Proof.
  intros Hs Ha. unfold parseAddr. now rewrite Hs, Ha.
Qed.

Lemma prepareRequest_error_kinds s addr w e :
  snd (fst (prepareRequest s addr w)) = Some e ->
  typedErrors.template e = typedErrors.template ErrHostUnknown.
Proof.
  destruct (parseAddr s addr) as [[host port] err] eqn:Hp.
  destruct (isSocks4a s) eqn:Ha.
  - rewrite (prepareRequest_socks4a _ _ _ _ _ _ Hp Ha). discriminate.
  - rewrite (prepareRequest_socks4 _ _ _ _ _ _ Hp Ha).
    destruct (ResolveIPAddr w "ip4" host); cbn [fst snd]; [discriminate |].
    intros [= <-]. reflexivity.
Qed.

Lemma Dial_reply_error_kinds c w e :
  snd (fst (Dial_reply c w)) = Some e ->
  In (typedErrors.template e) Dial_errors.
Proof.
  unfold Dial_reply, call_Read. destruct (conn_Read c) as [data rerr]. run.
  destruct rerr as [[] |];
    try (intros [= <-]; cbn; tauto);
    match goal with |- context [Z.eqb ?a ?b] => destruct (Z.eqb a b) end;
    try (intros [= <-]; cbn; tauto);
    match goal with |- context [nth 1 ?l x00] => destruct (nth 1 l x00) end;
    try discriminate; intros [= <-]; cbn; tauto.
Qed.

Lemma Dial_request_error_kinds s c addr w e :
  snd (fst (Dial_request s c addr w)) = Some e ->
  In (typedErrors.template e) Dial_errors.
Proof.
  destruct (prepareRequest s addr w) as [[req [e' |]] tr] eqn:Hq.
  - unfold Dial_request. run. rewrite Hq. run. intros [= <-].
    rewrite (prepareRequest_error_kinds s addr w e') by now rewrite Hq.
    cbn; tauto.
  - destruct (conn_Write c req) as [n [ew |]] eqn:Hw.
    + unfold Dial_request, call_Write. run. rewrite Hq. run. rewrite Hw. run.
      intros [= <-]. cbn; tauto.
    + rewrite (Dial_request_written s c addr w req n); [| now rewrite Hq | exact Hw].
      destruct (n <? minRequestLen); cbn [fst snd].
      * intros [= <-]. cbn; tauto.
      * apply Dial_reply_error_kinds.
Qed.

(** Every error of [Dial] is one of seven constants; [ErrWrongAddr] is not
    among them. *)
Lemma Dial_error_kinds s network addr w e :
  snd (fst (Dial s network addr w)) = Some e ->
  In (typedErrors.template e) Dial_errors.
Proof.
  unfold Dial.
  destruct (negb (String.eqb network "tcp") && negb (String.eqb network "tcp4")) eqn:Hn.
  - run. intros [= <-]. cbn; tauto.
  - apply andb_false_iff in Hn.
    assert (Hn' : network = "tcp" \/ network = "tcp4").
    { destruct Hn as [H | H]; apply negb_false_iff, String.eqb_eq in H; tauto. }
    destruct (Dialer_Dial (dialer s) network (Host (url s))) as [c | err] eqn:Hd.
    + pose proof (Dial_connected s network addr w c Hn' Hd) as HD.
      unfold Dial in HD.
      destruct Hn' as [-> | ->]; cbn [String.eqb Ascii.eqb Bool.eqb negb andb] in HD |- *;
        rewrite HD; cbn [fst snd]; apply Dial_request_error_kinds.
    + unfold call_Dial. run. rewrite Hd. run. intros [= <-]. cbn; tauto.
Qed.

Lemma Dial_never_WrongAddr s network addr w e :
  snd (fst (Dial s network addr w)) = Some e ->
  ~ typedErrors.Is e ErrWrongAddr.
Proof.
  intros H He. apply Dial_error_kinds in H. unfold typedErrors.Is in He.
  rewrite He in H. cbn in H.
  repeat (destruct H as [H | H]; [discriminate H |]). exact H.
Qed.

(** ** The network check *)

(** C5. For every [network] other than "tcp" and "tcp4", [Dial] returns
    [ErrWrongNetwork] and no stream, and its trace is empty: the upstream
    dialer was not called and nothing was written, read or closed. *)
Theorem Dial_wrong_network s network addr w :
  network <> "tcp" ->
  network <> "tcp4" ->
  Dial s network addr w = ((None, Some ErrWrongNetwork), []).
Proof.
  intros H1 H2. unfold Dial.
  apply String.eqb_neq in H1, H2. rewrite H1, H2. reflexivity.
Qed.

Lemma Dial_wrong_network_witness :
  Dial (mockSocks "socks4a" grantingConn) "udp" "example.com:80" mockWorld
  = ((None, Some ErrWrongNetwork), []).
Proof.
  apply (Dial_wrong_network (mockSocks "socks4a" grantingConn) "udp"
           "example.com:80" mockWorld); discriminate.
Defined.

(** ** The request *)




(** C9. The serialized request is a function of the scheme, the parsed host
    and port, [Ident] and (in socks4 mode) the resolver's answer for the host:
    two calls that agree on these return the same bytes and the same error,
    whatever else differs between them (the proxy endpoint, the dialer, the
    spelling of the address, the rest of the process state). *)
Theorem prepareRequest_deterministic s1 s2 addr1 addr2 w1 w2 host port e1 e2 :
  Scheme (url s1) = Scheme (url s2) ->
  parseAddr s1 addr1 = (host, port, e1) ->
  parseAddr s2 addr2 = (host, port, e2) ->
  Ident w1 = Ident w2 ->
  (isSocks4a s1 = false ->
   ResolveIPAddr w1 "ip4" host = ResolveIPAddr w2 "ip4" host) ->
  fst (prepareRequest s1 addr1 w1) = fst (prepareRequest s2 addr2 w2).
Proof.
  intros Hs Hp1 Hp2 Hi Hr.
  assert (Ha : isSocks4a s2 = isSocks4a s1).
  { unfold isSocks4a. now rewrite Hs. }
  destruct (isSocks4a s1) eqn:Ha1.
  - rewrite (prepareRequest_socks4a _ _ _ _ _ _ Hp1 Ha1).
    rewrite (prepareRequest_socks4a _ _ _ _ _ _ Hp2 Ha).
    now rewrite Hi.
  - rewrite (prepareRequest_socks4 _ _ _ _ _ _ Hp1 Ha1).
    rewrite (prepareRequest_socks4 _ _ _ _ _ _ Hp2 Ha).
    now rewrite Hi, (Hr eq_refl).
Qed.

Lemma prepareRequest_deterministic_witness :
  fst (prepareRequest (mockSocks "socks4" grantingConn) "example.com:80" mockWorld)
  = fst (prepareRequest otherSocks "example.com:+80" otherWorld).
Proof.
  apply (prepareRequest_deterministic
           (mockSocks "socks4" grantingConn) otherSocks
           "example.com:80" "example.com:+80" mockWorld otherWorld
           "example.com" 80 None None); reflexivity.
Defined.

(** ** The port *)

(** C2, as the code has it. When the port component parses as a base-10
    integer, whatever its value, [parseAddr] returns it without an error and
    [Dial] does not fail with [ErrWrongAddr]; the request carries the port
    reduced modulo 2^16, high byte first. *)
Theorem parseAddr_port_unchecked s addr host port iport :
  SplitHostPort addr = (host, port, None) ->
  Atoi port = (iport, None) ->
  parseAddr s addr = (host, iport, None)
  /\ (forall network w e,
        snd (fst (Dial s network addr w)) = Some e ->
        ~ typedErrors.Is e ErrWrongAddr)
  /\ (forall w req,
        fst (prepareRequest s addr w) = (req, None) ->
        firstn 4 req =
          [x04; x01;
           byte_of_Z (iport mod 2 ^ 16 / 256);
           byte_of_Z (iport mod 2 ^ 16 mod 256)]).
Proof.
  intros Hs Ha.
  pose proof (parseAddr_ok s addr host port iport Hs Ha) as Hp.
  split; [exact Hp |]. split.
  - intros network w e. apply Dial_never_WrongAddr.
  - intros w req.
    assert (Hbe : BigEndian_uint16 (uint16 iport) =
                  [byte_of_Z (iport mod 2 ^ 16 / 256);
                   byte_of_Z (iport mod 2 ^ 16 mod 256)]).
    { unfold BigEndian_uint16, uint16.
      rewrite Z.shiftr_div_pow2 by lia.
      change 255 with (Z.ones 8). rewrite Z.land_ones by lia.
      reflexivity. }
    destruct (isSocks4a s) eqn:H4.
    + rewrite (prepareRequest_socks4a _ _ _ _ _ _ Hp H4), Hbe.
      intros [= <-]. reflexivity.
    + rewrite (prepareRequest_socks4 _ _ _ _ _ _ Hp H4), Hbe.
      destruct (ResolveIPAddr w "ip4" host); cbn [fst]; [| discriminate].
      intros [= <-]. reflexivity.
Qed.

Lemma parseAddr_port_unchecked_witness :
  parseAddr (mockSocks "socks4a" grantingConn) "example.com:70000"
  = ("example.com", 70000, None).
Proof.
  apply (parseAddr_port_unchecked (mockSocks "socks4a" grantingConn)
           "example.com:70000" "example.com" "70000" 70000); reflexivity.
Defined.

(** C2, as the specification states it, fails: the port 70000 parses as an
    integer, lies outside 1..65535, and [Dial] succeeds. *)
Lemma Dial_port_out_of_range_accepted :
  SplitHostPort "example.com:70000" = ("example.com", "70000", None)
  /\ Atoi "70000" = (70000, None)
  /\ ~ (1 <= 70000 <= 65535)
  /\ fst (Dial (mockSocks "socks4a" grantingConn) "tcp" "example.com:70000" mockWorld)
     = (Some grantingConn, None).
Proof.
  repeat split; try reflexivity. lia.
Qed.

(** ** The reply *)

(** The reply stage succeeds only on a full reply whose status is
    [accessGranted]. *)
Lemma Dial_reply_success c w :
  snd (fst (Dial_reply c w)) = None ->
  nth 1 (fst (conn_Read c)) x00 = accessGranted.
Proof.
  destruct (conn_Read c) as [data rerr] eqn:Hr. cbn [fst].
  destruct (le_lt_dec 8 (List.length data)) as [Hlen | Hlen].
  - destruct rerr as [e |].
    + destruct e;
        try (unfold Dial_reply, call_Read; rewrite Hr; run; discriminate).
      rewrite (Dial_reply_full c w data (Some io_EOF) Hr Hlen) by tauto.
      cbn [snd]. destruct (nth 1 data x00); try discriminate. reflexivity.
    + rewrite (Dial_reply_full c w data None Hr Hlen) by tauto.
      cbn [snd]. destruct (nth 1 data x00); try discriminate. reflexivity.
  - rewrite (Dial_reply_short c w data rerr Hr Hlen). discriminate.
Qed.

Lemma Dial_request_success s c addr w :
  snd (fst (Dial_request s c addr w)) = None ->
  snd (fst (Dial_reply c w)) = None.
Proof.
  destruct (prepareRequest s addr w) as [[req [e' |]] tr] eqn:Hq.
  - unfold Dial_request. run. rewrite Hq. run. discriminate.
  - destruct (conn_Write c req) as [n [ew |]] eqn:Hw.
    + unfold Dial_request, call_Write. run. rewrite Hq. run. rewrite Hw. run.
      discriminate.
    + rewrite (Dial_request_written s c addr w req n); [| now rewrite Hq | exact Hw].
      destruct (n <? minRequestLen); cbn [fst snd]; [discriminate | tauto].
Qed.

(** ** After the transport is acquired *)

Section Connected.

Variables (s : socks4) (network addr : string) (w : World) (c : Conn).
Hypothesis Hnetwork : network = "tcp" \/ network = "tcp4".
Hypothesis Hdial : Dialer_Dial (dialer s) network (Host (url s)) = inl c.

(** C8. When the upstream dialer has answered with a connection [c], [Dial]
    hands back [c]; if it returns an error, its last call is [c.Close()] and
    there is no other close; if it returns no error, nothing was closed and
    the reply's status byte was 0x5A. *)
Theorem Dial_close_contract :
  fst (fst (Dial s network addr w)) = Some c
  /\ match snd (fst (Dial s network addr w)) with
     | Some _ =>
         exists tr,
           snd (Dial s network addr w) = tr ++ [EvClose (conn_id c)]
           /\ forall id, ~ In (EvClose id) tr
     | None =>
         (forall id, ~ In (EvClose id) (snd (Dial s network addr w)))
         /\ nth 1 (fst (conn_Read c)) x00 = accessGranted
     end.
Proof.
  rewrite (Dial_connected s network addr w c Hnetwork Hdial). cbn [fst snd].
  destruct (Dial_request_shape s c addr w) as [Hc Hnc].
  split; [exact Hc |].
  destruct (snd (fst (Dial_request s c addr w))) as [e |] eqn:He.
  - exists (EvDial network (Host (url s)) :: snd (Dial_request s c addr w)).
    split; [reflexivity |].
    intros id [Hin | Hin]; [discriminate | exact (Hnc id Hin)].
  - split.
    + intros id [Hin | Hin]; [discriminate |].
      rewrite app_nil_r in Hin. exact (Hnc id Hin).
    + apply (Dial_reply_success c w).
      apply (Dial_request_success s c addr w He).
Qed.

Section Written.

Variables (req : list byte) (n : Z).
Hypothesis Hprepare : fst (prepareRequest s addr w) = (req, None).
Hypothesis Hwrite : conn_Write c req = (n, None).

(** C10. When the write of the request reports no error, its count [n] is
    compared with [minRequestLen] only: below 8, [Dial] returns [ErrIO]
    wrapping [io.ErrShortWrite] and reads nothing; from 8 on, whether or not
    [n] reaches the length of the request, the read is made and the result
    is that of the reply stage. *)
Theorem Dial_short_write :
  (n < minRequestLen ->
   fst (Dial s network addr w) =
     (Some c, Some (typedErrors.Wrap ErrIO io_ErrShortWrite))
   /\ forall id len, ~ In (EvRead id len) (snd (Dial s network addr w)))
  /\
  (minRequestLen <= n ->
   fst (Dial s network addr w) = fst (Dial_reply c w)
   /\ In (EvRead (conn_id c) 8) (snd (Dial s network addr w))).
Proof.
  rewrite (Dial_connected s network addr w c Hnetwork Hdial). cbn [fst snd].
  rewrite (Dial_request_written s c addr w req n Hprepare Hwrite).
  split; intros Hlt.
  - apply Z.ltb_lt in Hlt. rewrite Hlt. cbn [fst snd].
    split; [reflexivity |].
    intros id len [Hin | Hin]; [discriminate |].
    apply in_app_or in Hin. destruct Hin as [Hin | Hin].
    + apply in_app_or in Hin. destruct Hin as [Hin | Hin].
      * destruct (prepareRequest_trace s addr w) as [E | [h E]];
          rewrite E in Hin; cbn in Hin; intuition discriminate.
      * cbn in Hin. intuition discriminate.
    + cbn in Hin. intuition discriminate.
  - apply Z.ltb_ge in Hlt. rewrite Hlt. cbn [fst snd].
    split; [reflexivity |].
    right. apply in_or_app. left. apply in_or_app. right.
    right. rewrite (proj1 (Dial_reply_shape c w)). now left.
Qed.

Section Replied.

Variables (data : list byte) (rerr : option goerr).
Hypothesis Hmin : minRequestLen <= n.
Hypothesis Hread : conn_Read c = (data, rerr).

(** The handshake has reached the reply stage. *)
Lemma Dial_reaches_reply : fst (Dial s network addr w) = fst (Dial_reply c w).
Proof.
  rewrite (Dial_connected s network addr w c Hnetwork Hdial). cbn [fst].
  rewrite (Dial_request_written s c addr w req n Hprepare Hwrite).
  apply Z.ltb_ge in Hmin. now rewrite Hmin.
Qed.

(** The calls of a handshake that has reached the reply stage: the dial,
    those of [prepareRequest], the write, the read, and the close that the
    deferred function makes when the reply stage returns an error. *)
Lemma Dial_reaches_reply_trace :
  snd (Dial s network addr w) =
    (EvDial network (Host (url s))
       :: snd (prepareRequest s addr w)
       ++ [EvWrite (conn_id c) req; EvRead (conn_id c) 8])
    ++ match snd (fst (Dial_reply c w)) with
       | Some _ => [EvClose (conn_id c)]
       | None => []
       end.
Proof.
  rewrite (Dial_connected s network addr w c Hnetwork Hdial). cbn [fst snd].
  rewrite (Dial_request_written s c addr w req n Hprepare Hwrite).
  apply Z.ltb_ge in Hmin. rewrite Hmin. cbn [fst snd].
  rewrite (proj1 (Dial_reply_shape c w)).
  reflexivity.
Qed.

(** C4. When the transport is acquired, the request is built and written (at
    least [minRequestLen] bytes, no error), and the read delivers 8 bytes
    with no error other than [io.EOF], the result of [Dial] follows from the
    second byte of the reply alone: 0x5A gives the stream and no error, 0x5B
    [ErrConnRejected], 0x5C and 0x5D [ErrIdentRequired], any other value
    [ErrInvalidResponse] with that byte as its argument. The stream returned
    is the acquired one in every case, and no other byte of the reply
    appears in the result. On 0x5A the stream is returned open: the calls
    made are the dial, those of [prepareRequest], the write and the read,
    and no connection is closed; on every other status the same calls are
    followed by the close of the acquired connection. *)
Theorem Dial_status_byte :
  rerr = None \/ rerr = Some io_EOF ->
  (8 <= List.length data)%nat ->
  let status := nth 1 data x00 in
  let res := fst (Dial s network addr w) in
  let tr := snd (Dial s network addr w) in
  let sent :=
    EvDial network (Host (url s))
      :: snd (prepareRequest s addr w)
      ++ [EvWrite (conn_id c) req; EvRead (conn_id c) 8] in
  fst res = Some c
  /\ (status = x5a ->
      snd res = None /\ tr = sent /\ forall id, ~ In (EvClose id) tr)
  /\ (status = x5b -> snd res = Some ErrConnRejected)
  /\ (status = x5c \/ status = x5d -> snd res = Some ErrIdentRequired)
  /\ (status <> x5a -> status <> x5b -> status <> x5c -> status <> x5d ->
      snd res = Some (typedErrors.WithArgs ErrInvalidResponse [ArgByte status]))
  /\ (status <> x5a -> tr = sent ++ [EvClose (conn_id c)]).
Proof.
  intros Herr Hlen status res tr sent.
  assert (Hreply : fst (Dial_reply c w) =
            (Some c,
             match nth 1 data x00 with
             | x5a => None
             | x5b => Some ErrConnRejected
             | x5c | x5d => Some ErrIdentRequired
             | b => Some (typedErrors.WithArgs ErrInvalidResponse [ArgByte b])
             end))
    by apply (Dial_reply_full c w data rerr Hread Hlen Herr).
  assert (Hres : res = fst (Dial_reply c w)) by apply Dial_reaches_reply.
  assert (Htr : tr = sent ++ match snd (fst (Dial_reply c w)) with
                             | Some _ => [EvClose (conn_id c)]
                             | None => []
                             end)
    by apply Dial_reaches_reply_trace.
  rewrite Hres, Htr, Hreply. cbn [fst snd]. subst status.
  split; [reflexivity |].
  split.
  { intros ->. rewrite app_nil_r.
    split; [reflexivity |]. split; [reflexivity |].
    intros id Hin. subst sent.
    destruct Hin as [Hin | Hin]; [discriminate Hin |].
    apply in_app_or in Hin. destruct Hin as [Hin | Hin].
    - destruct (prepareRequest_trace s addr w) as [E | [h E]];
        rewrite E in Hin; cbn in Hin; intuition discriminate.
    - cbn in Hin. intuition discriminate. }
  split; [intros ->; reflexivity |].
  split; [intros [-> | ->]; reflexivity |].
  split.
  { intros Ha Hb Hc Hd.
    destruct (nth 1 data x00); try reflexivity; congruence. }
  intros Ha. destruct (nth 1 data x00); try reflexivity; congruence.
Qed.

(** C7. When the transport is acquired and the request is built and written,
    a read that delivers fewer than 8 bytes (none at all included) makes
    [Dial] return [ErrIO]: wrapping [io.ErrUnexpectedEOF] when the read
    reported no error or [io.EOF], and the read's own error otherwise. The
    bytes delivered play no part in the result. *)
Theorem Dial_short_reply :
  (List.length data < 8)%nat ->
  fst (Dial s network addr w) =
    (Some c,
     Some (typedErrors.Wrap ErrIO
             match rerr with
             | None | Some io_EOF => io_ErrUnexpectedEOF
             | Some e => e
             end)).
Proof.
  intros Hlen. rewrite Dial_reaches_reply.
  apply (Dial_reply_short c w data rerr Hread Hlen).
Qed.

End Replied.

End Written.

End Connected.

Lemma Dial_close_contract_witness :
  exists tr,
    snd (Dial (mockSocks "socks4a" (mockConn (reply x5b) None))
           "tcp" "example.com:80" mockWorld)
    = tr ++ [EvClose 1]
    /\ forall id, ~ In (EvClose id) tr.
Proof.
  exact (proj2 (Dial_close_contract
                  (mockSocks "socks4a" (mockConn (reply x5b) None))
                  "tcp" "example.com:80" mockWorld
                  (mockConn (reply x5b) None)
                  (or_introl eq_refl) eq_refl)).
Defined.

(** At the fixture that reports 8 of the 35 bytes written, [Dial] succeeds. *)
Lemma Dial_short_write_witness :
  (8 < Z.of_nat (List.length
                   (fst (fst (prepareRequest (mockSocks "socks4a" truncatingConn)
                                "example.com:80" mockWorld)))))
  /\ fst (Dial (mockSocks "socks4a" truncatingConn) "tcp" "example.com:80" mockWorld)
     = (Some truncatingConn, None).
Proof.
  split; [vm_compute; reflexivity |].
  refine (eq_trans
            (proj1 (proj2 (Dial_short_write
                             (mockSocks "socks4a" truncatingConn)
                             "tcp" "example.com:80" mockWorld truncatingConn
                             _ _
                             (fst (fst (prepareRequest
                                          (mockSocks "socks4a" truncatingConn)
                                          "example.com:80" mockWorld)))
                             8 _ _) _)) _).
  - left; reflexivity.
  - reflexivity.
  - reflexivity.
  - reflexivity.
  - unfold minRequestLen; lia.
  - reflexivity.
Defined.

(** At a reply that grants, the stream comes back with no error and nothing
    is closed; at the status 0x99 the error carries that byte. *)
Lemma Dial_status_byte_witness :
  (snd (fst (Dial (mockSocks "socks4a" grantingConn)
               "tcp" "example.com:80" mockWorld)) = None
   /\ forall id,
        ~ In (EvClose id)
            (snd (Dial (mockSocks "socks4a" grantingConn)
                    "tcp" "example.com:80" mockWorld)))
  /\ snd (fst (Dial (mockSocks "socks4a" (mockConn (reply x99) (Some io_EOF)))
                 "tcp4" "example.com:80" mockWorld))
     = Some (typedErrors.WithArgs ErrInvalidResponse [ArgByte x99]).
Proof.
  split.
  - refine (let H :=
              proj1 (proj2
                (Dial_status_byte
                   (mockSocks "socks4a" grantingConn)
                   "tcp" "example.com:80" mockWorld grantingConn
                   _ _
                   (fst (fst (prepareRequest
                                (mockSocks "socks4a" grantingConn)
                                "example.com:80" mockWorld)))
                   35 _ _ (reply x5a) None
                   _ _ _ _)) _ in
            conj (proj1 H) (proj2 (proj2 H))).
    + left; reflexivity.
    + reflexivity.
    + reflexivity.
    + reflexivity.
    + unfold minRequestLen; lia.
    + reflexivity.
    + left; reflexivity.
    + cbn; lia.
    + reflexivity.
  - refine (proj1 (proj2 (proj2 (proj2 (proj2
             (Dial_status_byte
                (mockSocks "socks4a" (mockConn (reply x99) (Some io_EOF)))
                "tcp4" "example.com:80" mockWorld
                (mockConn (reply x99) (Some io_EOF))
                _ _
                (fst (fst (prepareRequest
                             (mockSocks "socks4a" (mockConn (reply x99) (Some io_EOF)))
                             "example.com:80" mockWorld)))
                35 _ _ (reply x99) (Some io_EOF)
                _ _ _ _))))) _ _ _ _).
    + right; reflexivity.
    + reflexivity.
    + reflexivity.
    + reflexivity.
    + unfold minRequestLen; lia.
    + reflexivity.
    + right; reflexivity.
    + cbn; lia.
    + discriminate.
    + discriminate.
    + discriminate.
    + discriminate.
Defined.

Lemma Dial_short_reply_witness :
  fst (Dial (mockSocks "socks4a" (mockConn [x00; x5a] (Some io_EOF)))
         "tcp" "example.com:80" mockWorld)
  = (Some (mockConn [x00; x5a] (Some io_EOF)),
     Some (typedErrors.Wrap ErrIO io_ErrUnexpectedEOF)).
Proof.
  refine (Dial_short_reply
            (mockSocks "socks4a" (mockConn [x00; x5a] (Some io_EOF)))
            "tcp" "example.com:80" mockWorld
            (mockConn [x00; x5a] (Some io_EOF))
            _ _
            (fst (fst (prepareRequest
                         (mockSocks "socks4a" (mockConn [x00; x5a] (Some io_EOF)))
                         "example.com:80" mockWorld)))
            35 _ _ [x00; x5a] (Some io_EOF) _ _ _).
  - left; reflexivity.
  - reflexivity.
  - reflexivity.
  - reflexivity.
  - unfold minRequestLen; lia.
  - reflexivity.
  - cbn; lia.
Defined.

(** ** The error of [parseAddr] is dropped *)

(** C1 (defect in the code). [parseAddr] rejects "example.com", which has no
    port, with [ErrWrongAddr] completed with that string; [prepareRequest]
    does not read the error, and [Dial] goes on to send a request for port 0
    and returns the stream without an error, in socks4a mode and (the
    resolver answering for the empty host) in socks4 mode. *)
Theorem Dial_missing_port_not_rejected :
  parseAddr (mockSocks "socks4a" grantingConn) "example.com"
  = ("", 0,
     Some (typedErrors.Wrap
             (typedErrors.WithArgs ErrWrongAddr [ArgString "example.com"])
             (AddrError "missing port in address" "example.com")))
  /\ Dial (mockSocks "socks4a" grantingConn) "tcp" "example.com" mockWorld
     = ((Some grantingConn, None),
        [EvDial "tcp" "127.0.0.1:1080";
         EvWrite 1 ([x04; x01; x00; x00; x00; x00; x00; x01]
                      ++ bytes_of_string default_Ident ++ [x00] ++ [x00]);
         EvRead 1 8])
  /\ Dial (mockSocks "socks4" grantingConn) "tcp" "example.com" mockWorld
     = ((Some grantingConn, None),
        [EvDial "tcp" "127.0.0.1:1080";
         EvResolve "ip4" "";
         EvWrite 1 ([x04; x01; x00; x00]
                      ++ bytes_of_string default_Ident ++ [x00]);
         EvRead 1 8]).
Proof.
  repeat split; reflexivity.
Qed.

(** C3 (defect in the code). The error that [parseAddr] detects for the
    port "http" does not reach the caller of [Dial]: the request is sent, the
    reply read, and the stream returned with no error and not closed. *)
Theorem Dial_swallows_parse_error :
  snd (parseAddr (mockSocks "socks4a" grantingConn) "example.com:http")
  = Some (typedErrors.Wrap
            (typedErrors.WithArgs ErrWrongAddr [ArgString "example.com:http"])
            (NumError "Atoi" "http" ErrSyntax))
  /\ fst (Dial (mockSocks "socks4a" grantingConn) "tcp" "example.com:http" mockWorld)
     = (Some grantingConn, None)
  /\ ~ In (EvClose 1)
         (snd (Dial (mockSocks "socks4a" grantingConn) "tcp" "example.com:http" mockWorld)).
Proof.
  split; [reflexivity |]. split; [reflexivity |].
  vm_compute. intros H.
  repeat (destruct H as [H | H]; [discriminate H |]). exact H.
Qed.

(** ** The failure paths of [Dial] *)

(** [Dial] when the upstream dialer refuses. *)
Lemma Dial_dialer_error_aux s network addr w e :
  network = "tcp" \/ network = "tcp4" ->
  Dialer_Dial (dialer s) network (Host (url s)) = inr e ->
  Dial s network addr w =
    ((None, Some (typedErrors.Wrap ErrDialFailed e)),
     [EvDial network (Host (url s))]).
Proof.
  intros Hn Hd. unfold Dial, call_Dial.
  assert (Hne : negb (String.eqb network "tcp") && negb (String.eqb network "tcp4") = false).
  { destruct Hn as [-> | ->]; reflexivity. }
  rewrite Hne. run. rewrite Hd. reflexivity.
Qed.

(** X1. When the upstream dialer fails with [e], [Dial] returns no stream and
    [ErrDialFailed] wrapping [e]; the one call made is the dial of the proxy
    endpoint [s.url.Host] with the caller's network: nothing is resolved,
    written, read or closed. *)
Theorem Dial_dialer_error s network addr w e :
  network = "tcp" \/ network = "tcp4" ->
  Dialer_Dial (dialer s) network (Host (url s)) = inr e ->
  Dial s network addr w =
    ((None, Some (typedErrors.Wrap ErrDialFailed e)),
     [EvDial network (Host (url s))]).
Proof.
  exact (Dial_dialer_error_aux s network addr w e).
Qed.

Lemma Dial_dialer_error_witness :
  Dial otherSocks "tcp4" "example.com:80" mockWorld =
    ((None, Some (typedErrors.Wrap ErrDialFailed (Foreign "unreachable"))),
     [EvDial "tcp4" "10.0.0.1:9050"]).
Proof.
  apply (Dial_dialer_error otherSocks "tcp4" "example.com:80" mockWorld
           (Foreign "unreachable")); [right |]; reflexivity.
Defined.

(** X2. In socks4 mode, when the resolver fails for the host with [e], [Dial]
    returns [ErrHostUnknown] completed with the host and wrapping [e]; the
    calls are the dial, the resolution for "ip4" and the close of the
    connection: no request is written and no reply is read. *)
Theorem Dial_host_unknown s network addr w c host port perr e :
  network = "tcp" \/ network = "tcp4" ->
  Dialer_Dial (dialer s) network (Host (url s)) = inl c ->
  isSocks4a s = false ->
  parseAddr s addr = (host, port, perr) ->
  ResolveIPAddr w "ip4" host = inr e ->
  Dial s network addr w =
    ((Some c,
      Some (typedErrors.Wrap
              (typedErrors.WithArgs ErrHostUnknown [ArgString host]) e)),
     [EvDial network (Host (url s)); EvResolve "ip4" host; EvClose (conn_id c)]).
Proof.
  intros Hn Hd Ha Hp Hr.
  rewrite (Dial_connected s network addr w c Hn Hd).
  unfold Dial_request. run.
  rewrite (prepareRequest_socks4 s addr w host port perr Hp Ha), Hr.
  reflexivity.
Qed.

Lemma Dial_host_unknown_witness :
  Dial (mockSocks "socks4" grantingConn) "tcp" "unknown.example:80" mockWorld =
    ((Some grantingConn,
      Some (typedErrors.Wrap
              (typedErrors.WithArgs ErrHostUnknown [ArgString "unknown.example"])
              (Foreign "no such host"))),
     [EvDial "tcp" "127.0.0.1:1080"; EvResolve "ip4" "unknown.example"; EvClose 1]).
Proof.
  apply (Dial_host_unknown (mockSocks "socks4" grantingConn) "tcp"
           "unknown.example:80" mockWorld grantingConn
           "unknown.example" 80 None (Foreign "no such host"));
    [left | | | |]; reflexivity.
Defined.

(** X3. When the write of the request reports an error [e], [Dial] returns
    [ErrIO] wrapping [e] whatever count the write reports with it; the reply
    is not read and the connection is closed. *)
Theorem Dial_write_error s network addr w c req n e :
  network = "tcp" \/ network = "tcp4" ->
  Dialer_Dial (dialer s) network (Host (url s)) = inl c ->
  fst (prepareRequest s addr w) = (req, None) ->
  conn_Write c req = (n, Some e) ->
  Dial s network addr w =
    ((Some c, Some (typedErrors.Wrap ErrIO e)),
     EvDial network (Host (url s))
       :: snd (prepareRequest s addr w)
       ++ [EvWrite (conn_id c) req; EvClose (conn_id c)]).
Proof.
  intros Hn Hd Hp Hw.
  rewrite (Dial_connected s network addr w c Hn Hd).
  unfold Dial_request, call_Write. run.
  destruct (prepareRequest s addr w) as [[req' e'] tr].
  cbn in Hp. injection Hp as -> ->. run. rewrite Hw. run.
  rewrite <- app_assoc. reflexivity.
Qed.

Lemma Dial_write_error_witness :
  Dial (mockSocks "socks4a" (brokenConn 35)) "tcp" "example.com:80" mockWorld =
    ((Some (brokenConn 35), Some (typedErrors.Wrap ErrIO (Foreign "broken pipe"))),
     [EvDial "tcp" "127.0.0.1:1080";
      EvWrite 2 ([x04; x01; x00; x50; x00; x00; x00; x01]
                   ++ bytes_of_string "nobody@0.0.0.0" ++ [x00]
                   ++ bytes_of_string "example.com" ++ [x00]);
      EvClose 2]).
Proof.
  apply (Dial_write_error (mockSocks "socks4a" (brokenConn 35)) "tcp"
           "example.com:80" mockWorld (brokenConn 35)
           ([x04; x01; x00; x50; x00; x00; x00; x01]
              ++ bytes_of_string "nobody@0.0.0.0" ++ [x00]
              ++ bytes_of_string "example.com" ++ [x00])
           35 (Foreign "broken pipe"));
    [left | | |]; reflexivity.
Defined.

(** X4. When the read of the reply reports an error other than [io.EOF],
    [Dial] returns [ErrIO] wrapping that error whatever bytes came with it: a
    complete reply that grants the connection is not looked at. *)
Theorem Dial_read_error s network addr w c req n data e :
  network = "tcp" \/ network = "tcp4" ->
  Dialer_Dial (dialer s) network (Host (url s)) = inl c ->
  fst (prepareRequest s addr w) = (req, None) ->
  conn_Write c req = (n, None) ->
  minRequestLen <= n ->
  conn_Read c = (data, Some e) ->
  e <> io_EOF ->
  fst (Dial s network addr w) = (Some c, Some (typedErrors.Wrap ErrIO e)).
Proof.
  intros Hn Hd Hp Hw Hmin Hr He.
  rewrite (Dial_connected s network addr w c Hn Hd). cbn [fst].
  rewrite (Dial_request_written s c addr w req n Hp Hw).
  apply Z.ltb_ge in Hmin. rewrite Hmin. cbn [fst].
  unfold Dial_reply, call_Read. rewrite Hr. run.
  destruct e; try reflexivity. now elim He.
Qed.

Lemma Dial_read_error_witness :
  fst (Dial (mockSocks "socks4a" (mockConn (reply x5a) (Some (Foreign "reset"))))
         "tcp" "example.com:80" mockWorld)
  = (Some (mockConn (reply x5a) (Some (Foreign "reset"))),
     Some (typedErrors.Wrap ErrIO (Foreign "reset"))).
Proof.
  refine (Dial_read_error
            (mockSocks "socks4a" (mockConn (reply x5a) (Some (Foreign "reset"))))
            "tcp" "example.com:80" mockWorld
            (mockConn (reply x5a) (Some (Foreign "reset")))
            (fst (fst (prepareRequest
                         (mockSocks "socks4a" (mockConn (reply x5a) (Some (Foreign "reset"))))
                         "example.com:80" mockWorld)))
            35 (reply x5a) (Foreign "reset") _ _ _ _ _ _ _).
  - left; reflexivity.
  - reflexivity.
  - reflexivity.
  - reflexivity.
  - unfold minRequestLen; lia.
  - reflexivity.
  - discriminate.
Defined.

(** ** The order of the calls *)

(** X5. The calls that [Dial] makes follow one order. There is none (the
    network was refused), or the first is the dial of the proxy endpoint
    [s.url.Host] with the caller's network; then at most one resolution,
    which [prepareRequest] makes; then at most one write, of the request
    that [prepareRequest] built; then at most one read, into 8 bytes; and a
    close, if any, is the last call. *)
Theorem Dial_call_order s network addr w :
  let tr := snd (Dial s network addr w) in
  let d := EvDial network (Host (url s)) in
  let pre := snd (prepareRequest s addr w) in
  let req := fst (fst (prepareRequest s addr w)) in
  (pre = [] \/ exists host, pre = [EvResolve "ip4" host])
  /\ (tr = [] \/ tr = [d] \/
      exists c,
        Dialer_Dial (dialer s) network (Host (url s)) = inl c
        /\ (tr = d :: pre ++ [EvClose (conn_id c)]
            \/ tr = d :: pre ++ [EvWrite (conn_id c) req; EvClose (conn_id c)]
            \/ tr = d :: pre ++ [EvWrite (conn_id c) req; EvRead (conn_id c) 8]
            \/ tr = d :: pre ++ [EvWrite (conn_id c) req; EvRead (conn_id c) 8;
                                 EvClose (conn_id c)])).
Proof.
  intros tr d pre req. split; [apply prepareRequest_trace |].
  subst tr d pre req.
  destruct (negb (String.eqb network "tcp") && negb (String.eqb network "tcp4")) eqn:Hn.
  { left. unfold Dial. rewrite Hn. reflexivity. }
  right.
  assert (Hn' : network = "tcp" \/ network = "tcp4").
  { apply andb_false_iff in Hn.
    destruct Hn as [H | H]; apply negb_false_iff, String.eqb_eq in H; tauto. }
  destruct (Dialer_Dial (dialer s) network (Host (url s))) as [c | e] eqn:Hd.
  2:{ left. now rewrite (Dial_dialer_error_aux s network addr w e Hn' Hd). }
  right. exists c. split; [reflexivity |].
  rewrite (Dial_connected s network addr w c Hn' Hd). cbn [fst snd].
  destruct (prepareRequest s addr w) as [[req [e' |]] pre] eqn:Hq; cbn [fst snd].
  - left. unfold Dial_request. run. rewrite Hq. run.
    now rewrite app_nil_r.
  - destruct (conn_Write c req) as [n [ew |]] eqn:Hw.
    + right; left. unfold Dial_request, call_Write. run. rewrite Hq. run.
      rewrite Hw. run. now rewrite <- app_assoc.
    + rewrite (Dial_request_written s c addr w req n); [| now rewrite Hq | exact Hw].
      rewrite Hq. cbn [snd].
      destruct (n <? minRequestLen); cbn [fst snd].
      * right; left. now rewrite <- app_assoc.
      * rewrite (proj1 (Dial_reply_shape c w)).
        destruct (snd (fst (Dial_reply c w))).
        -- right; right; right. now rewrite <- app_assoc.
        -- right; right; left. now rewrite app_nil_r.
Qed.

(** ** The bytes of the request *)

Lemma Z_of_byte_of_Z z : Z_of_byte (byte_of_Z z) = z mod 256.
Proof.
  unfold Z_of_byte, byte_of_Z.
  assert (Hb : 0 <= z mod 256 < 256) by (apply Z.mod_pos_bound; lia).
  destruct (Byte.of_N (Z.to_N (z mod 256))) as [b |] eqn:E.
  - apply Byte.to_of_N in E. rewrite E. apply Z2N.id. lia.
  - apply Byte.of_N_None_iff in E. lia.
Qed.

Lemma Z_of_byte_range b : 0 <= Z_of_byte b < 256.
Proof.
  unfold Z_of_byte. pose proof (Byte.to_N_bounded b). lia.
Qed.

Lemma testbit_above_8 b n : 0 <= b < 256 -> 8 <= n -> Z.testbit b n = false.
Proof.
  intros Hb Hn.
  destruct (Z.eq_dec b 0) as [-> | Hnz]; [apply Z.bits_0 |].
  apply Z.bits_above_log2; [lia |].
  assert (Z.log2 b < 8); [| lia].
  apply Z.log2_lt_pow2; lia.
Qed.

(** [binary.BigEndian.Uint16] on two bytes is [256 * high + low]. *)
Lemma BigEndian_Uint16_value h l rest :
  BigEndian_Uint16 (h :: l :: rest) = 256 * Z_of_byte h + Z_of_byte l.
Proof.
  unfold BigEndian_Uint16. cbn [nth].
  pose proof (Z_of_byte_range h) as Hh. pose proof (Z_of_byte_range l) as Hl.
  assert (Hland : Z.land (Z.shiftl (Z_of_byte h) 8) (Z_of_byte l) = 0).
  { apply Z.bits_inj'. intros n Hn. rewrite Z.land_spec, Z.bits_0.
    destruct (Z_lt_le_dec n 8) as [Hlt | Hge].
    - rewrite Z.shiftl_spec_low by lia. reflexivity.
    - rewrite (testbit_above_8 (Z_of_byte l) n Hl Hge). apply andb_false_r. }
  rewrite <- (Z.lxor_lor _ _ Hland), <- (Z.add_nocarry_lxor _ _ Hland).
  rewrite Z.shiftl_mul_pow2 by lia. change (2 ^ 8) with 256. lia.
Qed.

(** Read back, the two bytes written for [v] give [v mod 2^16]. *)
Lemma BigEndian_uint16_read v rest :
  BigEndian_Uint16 (BigEndian_uint16 v ++ rest) = v mod 2 ^ 16.
Proof.
  unfold BigEndian_uint16. cbn [app].
  rewrite BigEndian_Uint16_value, !Z_of_byte_of_Z.
  rewrite Z.shiftr_div_pow2 by lia.
  change 255 with (Z.ones 8). rewrite Z.land_ones by lia.
  change (2 ^ 8) with 256. change (2 ^ 16) with 65536.
  rewrite Z.mod_mod by lia.
  pose proof (Z.div_mod v 256 ltac:(lia)) as Hv.
  pose proof (Z.mod_pos_bound v 256 ltac:(lia)) as Hlo.
  pose proof (Z.div_mod (v / 256) 256 ltac:(lia)) as Hq.
  pose proof (Z.mod_pos_bound (v / 256) 256 ltac:(lia)) as Hhi.
  apply (Z.mod_unique_pos _ _ (v / 256 / 256)); lia.
Qed.

Lemma bytes_of_string_length s :
  List.length (bytes_of_string s) = String.length s.
Proof.
  unfold bytes_of_string, list_byte_of_string.
  rewrite length_map. induction s as [| a s IH]; cbn; [reflexivity | now f_equal].
Qed.

Lemma bytes_of_string_inj s1 s2 :
  bytes_of_string s1 = bytes_of_string s2 -> s1 = s2.
Proof.
  unfold bytes_of_string. intros H.
  rewrite <- (string_of_list_byte_of_string s1), H.
  apply string_of_list_byte_of_string.
Qed.

(** The frame of every request that [prepareRequest] returns. *)
Lemma prepareRequest_frame s addr w req :
  fst (prepareRequest s addr w) = (req, None) ->
  exists body,
    req = [socksVersion; socksConnect]
            ++ BigEndian_uint16 (uint16 (snd (fst (parseAddr s addr))))
            ++ body ++ [x00].
Proof.
  destruct (parseAddr s addr) as [[host port] perr] eqn:Hp. cbn [fst snd].
  destruct (isSocks4a s) eqn:Ha.
  - rewrite (prepareRequest_socks4a _ _ _ _ _ _ Hp Ha). intros [= <-].
    exists ([x00; x00; x00; x01] ++ bytes_of_string (Ident w) ++ [x00]
              ++ bytes_of_string host).
    unfold socksVersion, socksConnect. rewrite <- !app_assoc. reflexivity.
  - rewrite (prepareRequest_socks4 _ _ _ _ _ _ Hp Ha).
    destruct (ResolveIPAddr w "ip4" host) as [ip | e]; cbn [fst]; [| discriminate].
    intros [= <-].
    exists (To4 ip ++ bytes_of_string (Ident w)).
    unfold socksVersion, socksConnect. rewrite <- !app_assoc. reflexivity.
Qed.

(** X6. Whatever the descriptor, the address and the process, a request that
    [prepareRequest] returns begins with the version byte 4 and the command
    byte 1 (connect, never bind), carries the port next, and ends with a NUL
    byte. *)
Theorem prepareRequest_framing s addr w req :
  fst (prepareRequest s addr w) = (req, None) ->
  exists body,
    req = [socksVersion; socksConnect]
            ++ BigEndian_uint16 (uint16 (snd (fst (parseAddr s addr))))
            ++ body ++ [x00].
Proof.
  exact (prepareRequest_frame s addr w req).
Qed.

Lemma prepareRequest_framing_witness :
  exists body,
    [x04; x01; x00; x50; x5d; xb8; xd8; x22]
      ++ bytes_of_string "nobody@0.0.0.0" ++ [x00]
    = [socksVersion; socksConnect]
        ++ BigEndian_uint16
             (uint16 (snd (fst (parseAddr (mockSocks "socks4" grantingConn)
                                  "example.com:80"))))
        ++ body ++ [x00].
Proof.
  apply (prepareRequest_framing (mockSocks "socks4" grantingConn)
           "example.com:80" mockWorld). reflexivity.
Defined.

(** X7. The port field of a request, read back as a big-endian 16-bit
    number, is the parsed port modulo 2^16; it is the parsed port itself
    when that lies in 0..65535. *)
Theorem prepareRequest_port_field s addr w host port perr req :
  parseAddr s addr = (host, port, perr) ->
  fst (prepareRequest s addr w) = (req, None) ->
  BigEndian_Uint16 (skipn 2 req) = port mod 2 ^ 16
  /\ (0 <= port < 2 ^ 16 -> BigEndian_Uint16 (skipn 2 req) = port).
Proof.
  intros Hp Hq.
  destruct (prepareRequest_frame s addr w req Hq) as [body ->].
  rewrite Hp. cbn [fst snd app skipn].
  rewrite BigEndian_uint16_read. unfold uint16.
  rewrite Z.mod_mod by lia.
  split; [reflexivity |].
  intros Hr. apply Z.mod_small. exact Hr.
Qed.

Lemma prepareRequest_port_field_witness :
  BigEndian_Uint16
    (skipn 2 (fst (fst (prepareRequest (mockSocks "socks4a" grantingConn)
                          "example.com:8080" mockWorld))))
  = 8080.
Proof.
  refine (proj2 (prepareRequest_port_field
                   (mockSocks "socks4a" grantingConn) "example.com:8080"
                   mockWorld "example.com" 8080 None _ _ _) _).
  - reflexivity.
  - reflexivity.
  - lia.
Defined.

(** X8. The length of the request: in socks4a mode, 10 bytes and the bytes
    of [Ident] and of the host, so never less than [minRequestLen]; in
    socks4 mode, 5 bytes, the bytes of [Ident] and the 4 bytes (or none) of
    the resolved address. *)
Theorem prepareRequest_length s addr w host port perr req :
  parseAddr s addr = (host, port, perr) ->
  fst (prepareRequest s addr w) = (req, None) ->
  (isSocks4a s = true ->
   List.length req = (10 + String.length (Ident w) + String.length host)%nat
   /\ minRequestLen <= Z.of_nat (List.length req))
  /\ (isSocks4a s = false ->
      forall ip,
        ResolveIPAddr w "ip4" host = inl ip ->
        List.length req
        = (5 + List.length (To4 ip) + String.length (Ident w))%nat
        /\ (List.length (To4 ip) = 4 \/ List.length (To4 ip) = 0)%nat).
Proof.
  intros Hp Hq. split; intros Ha.
  - rewrite (prepareRequest_socks4a _ _ _ _ _ _ Hp Ha) in Hq.
    injection Hq as <-.
    unfold minRequestLen, BigEndian_uint16. cbn [app List.length].
    repeat (progress (rewrite ?length_app, ?bytes_of_string_length;
                      cbn [List.length])).
    split; lia.
  - intros ip Hr.
    rewrite (prepareRequest_socks4 _ _ _ _ _ _ Hp Ha), Hr in Hq.
    injection Hq as <-. split.
    + unfold BigEndian_uint16. cbn [app List.length].
      repeat (progress (rewrite ?length_app, ?bytes_of_string_length;
                        cbn [List.length])). lia.
    + destruct (To4_length ip) as [H | H]; [now left | right; now rewrite H].
Qed.

Lemma prepareRequest_length_witness :
  List.length (fst (fst (prepareRequest (mockSocks "socks4a" grantingConn)
                           "example.com:80" mockWorld)))
  = (10 + String.length "nobody@0.0.0.0" + String.length "example.com")%nat.
Proof.
  refine (proj1 (proj1 (prepareRequest_length
                          (mockSocks "socks4a" grantingConn) "example.com:80"
                          mockWorld "example.com" 80 None _ _ _) _)).
  - reflexivity.
  - reflexivity.
  - reflexivity.
Defined.

(** X9. In socks4a mode and one process, the request tells the targets
    apart: two requests with the same bytes were built for the same host and
    for ports that agree modulo 2^16. *)
Theorem prepareRequest_socks4a_injective
  s1 s2 addr1 addr2 w host1 port1 perr1 host2 port2 perr2 :
  isSocks4a s1 = true ->
  isSocks4a s2 = true ->
  parseAddr s1 addr1 = (host1, port1, perr1) ->
  parseAddr s2 addr2 = (host2, port2, perr2) ->
  fst (fst (prepareRequest s1 addr1 w)) = fst (fst (prepareRequest s2 addr2 w)) ->
  host1 = host2 /\ port1 mod 2 ^ 16 = port2 mod 2 ^ 16.
Proof.
  intros Ha1 Ha2 Hp1 Hp2.
  rewrite (prepareRequest_socks4a _ _ _ _ _ _ Hp1 Ha1).
  rewrite (prepareRequest_socks4a _ _ _ _ _ _ Hp2 Ha2).
  cbn [fst]. intros Heq. split.
  - unfold BigEndian_uint16 in Heq. cbn [app] in Heq.
    injection Heq as _ _ Heq.
    apply app_inv_head in Heq. injection Heq as Heq.
    apply app_inv_tail in Heq. now apply bytes_of_string_inj.
  - apply (f_equal (fun r => BigEndian_Uint16 (skipn 2 r))) in Heq.
    cbn [app skipn] in Heq.
    rewrite !BigEndian_uint16_read in Heq. unfold uint16 in Heq.
    now rewrite !Z.mod_mod in Heq by lia.
Qed.

Lemma prepareRequest_socks4a_injective_witness :
  "example.com" = "example.com" /\ 80 mod 2 ^ 16 = 65616 mod 2 ^ 16.
Proof.
  apply (prepareRequest_socks4a_injective
           (mockSocks "socks4a" grantingConn) (mockSocks "socks4a" truncatingConn)
           "example.com:80" "example.com:65616" mockWorld
           "example.com" 80 None "example.com" 65616 None); reflexivity.
Defined.

(** ** [parseAddr] by the shape of the address *)

Lemma LastIndexByteString_None s c :
  IndexByteString s c = None -> LastIndexByteString s c = None.
Proof.
  induction s as [| a s IH]; cbn; [reflexivity |].
  destruct (Ascii.eqb a c); [discriminate |].
  destruct (IndexByteString s c); [discriminate |].
  intros _. now rewrite IH.
Qed.

Lemma IndexByteString_app_None s1 s2 c :
  IndexByteString s1 c = None ->
  IndexByteString s2 c = None ->
  IndexByteString (s1 ++ s2)%string c = None.
Proof.
  intros H1 H2. induction s1 as [| a s1 IH]; cbn in *; [exact H2 |].
  destruct (Ascii.eqb a c); [discriminate |].
  destruct (IndexByteString s1 c); [discriminate |].
  now rewrite IH.
Qed.

Lemma LastIndexByteString_app s1 s2 c :
  IndexByteString s2 c = None ->
  LastIndexByteString (s1 ++ String c s2)%string c = Some (String.length s1).
Proof.
  intros H2. induction s1 as [| a s1 IH]; cbn.
  - rewrite (LastIndexByteString_None s2 c H2), Ascii.eqb_refl. reflexivity.
  - now rewrite IH.
Qed.

Lemma substring_whole s : substring 0 (String.length s) s = s.
Proof.
  induction s as [| a s IH]; cbn; [reflexivity | now rewrite IH].
Qed.

Lemma substring_app_l s1 s2 :
  substring 0 (String.length s1) (s1 ++ s2)%string = s1.
Proof.
  induction s1 as [| a s1 IH]; cbn.
  - destruct s2; reflexivity.
  - now rewrite IH.
Qed.

Lemma substring_app_r s1 a s2 :
  substring (String.length s1 + 1) (String.length s2) (s1 ++ String a s2)%string = s2.
Proof.
  induction s1 as [| b s1 IH]; cbn.
  - apply substring_whole.
  - exact IH.
Qed.

Lemma length_append s1 s2 :
  String.length (s1 ++ s2)%string = (String.length s1 + String.length s2)%nat.
Proof.
  induction s1 as [| a s1 IH]; cbn; [reflexivity | now rewrite IH].
Qed.

(** [net.SplitHostPort] on a host and a port joined by a colon, neither of
    which holds a colon or a square bracket. *)
Lemma SplitHostPort_join h p :
  IndexByteString h ":" = None ->
  IndexByteString h "[" = None ->
  IndexByteString h "]" = None ->
  IndexByteString p ":" = None ->
  IndexByteString p "[" = None ->
  IndexByteString p "]" = None ->
  SplitHostPort (h ++ ":" ++ p)%string = (h, p, None).
Proof.
  intros Hc Ho Hcl Pc Po Pcl. unfold SplitHostPort.
  change (h ++ ":" ++ p)%string with (h ++ String ":" p)%string.
  rewrite (LastIndexByteString_app h p ":" Pc).
  assert (Hb : match String.get 0 (h ++ String ":" p)%string with
               | Some c => Ascii.eqb c "["
               | None => false
               end = false).
  { destruct h as [| a h]; [reflexivity |].
    cbn in Ho |- *. destruct (Ascii.eqb a "["); [discriminate | reflexivity]. }
  rewrite Hb.
  unfold slice, slice_from, has_byte.
  rewrite !Nat.sub_0_r, substring_app_l, Hc, substring_whole.
  rewrite (IndexByteString_app_None h (String ":" p) "[" Ho) by (cbn; now rewrite Po).
  rewrite (IndexByteString_app_None h (String ":" p) "]" Hcl) by (cbn; now rewrite Pcl).
  rewrite length_append. cbn [String.length].
  replace (String.length h + S (String.length p) - (String.length h + 1))%nat
    with (String.length p) by lia.
  now rewrite substring_app_r.
Qed.

(** X10. An address with no colon is refused by [parseAddr]: the host is
    empty, the port 0, and the error is [ErrWrongAddr] completed with the
    address itself and wrapping the "missing port in address" error. *)
Theorem parseAddr_no_colon s addr :
  IndexByteString addr ":" = None ->
  parseAddr s addr =
    ("", 0,
     Some (typedErrors.Wrap
             (typedErrors.WithArgs ErrWrongAddr [ArgString addr])
             (AddrError "missing port in address" addr))).
Proof.
  intros H. unfold parseAddr, SplitHostPort.
  now rewrite (LastIndexByteString_None addr ":" H).
Qed.

Lemma parseAddr_no_colon_witness :
  parseAddr (mockSocks "socks4" grantingConn) "localhost" =
    ("", 0,
     Some (typedErrors.Wrap
             (typedErrors.WithArgs ErrWrongAddr [ArgString "localhost"])
             (AddrError "missing port in address" "localhost"))).
Proof.
  apply (parseAddr_no_colon (mockSocks "socks4" grantingConn) "localhost").
  reflexivity.
Defined.

(** X11. For a host and a port text joined by a colon, neither holding a
    colon or a square bracket, [parseAddr] stands or falls with
    [strconv.Atoi] on the port text: it returns the host unchanged and the
    number, or [ErrWrongAddr] completed with the whole address and wrapping
    the error of [Atoi]. *)
Theorem parseAddr_host_port s h p :
  IndexByteString h ":" = None ->
  IndexByteString h "[" = None ->
  IndexByteString h "]" = None ->
  IndexByteString p ":" = None ->
  IndexByteString p "[" = None ->
  IndexByteString p "]" = None ->
  parseAddr s (h ++ ":" ++ p)%string =
    match Atoi p with
    | (n, None) => (h, n, None)
    | (_, Some e) =>
        ("", 0,
         Some (typedErrors.Wrap
                 (typedErrors.WithArgs ErrWrongAddr
                    [ArgString (h ++ ":" ++ p)%string]) e))
    end.
Proof.
  intros Hc Ho Hcl Pc Po Pcl. unfold parseAddr.
  rewrite (SplitHostPort_join h p Hc Ho Hcl Pc Po Pcl).
  destruct (Atoi p) as [n [e |]]; reflexivity.
Qed.

Lemma parseAddr_host_port_witness :
  parseAddr (mockSocks "socks4" grantingConn) "example.com:" =
    ("", 0,
     Some (typedErrors.Wrap
             (typedErrors.WithArgs ErrWrongAddr [ArgString "example.com:"])
             (NumError "Atoi" "" ErrSyntax))).
Proof.
  apply (parseAddr_host_port (mockSocks "socks4" grantingConn) "example.com" "");
    reflexivity.
Defined.

(** ** What decides the result of [Dial] *)

Lemma Dial_reply_granted c w :
  snd (fst (Dial_reply c w)) = None ->
  (snd (conn_Read c) = None \/ snd (conn_Read c) = Some io_EOF)
  /\ (8 <= List.length (fst (conn_Read c)))%nat
  /\ nth 1 (fst (conn_Read c)) x00 = accessGranted.
Proof.
  intros H. pose proof (Dial_reply_success c w H) as Hs.
  destruct (conn_Read c) as [data rerr] eqn:Hr. cbn [fst snd] in *.
  destruct (le_lt_dec 8 (List.length data)) as [Hlen | Hlen].
  - split; [| split; assumption].
    destruct rerr as [e |]; [| now left].
    destruct e; try (right; reflexivity);
      unfold Dial_reply, call_Read in H; rewrite Hr in H; discriminate H.
  - rewrite (Dial_reply_short c w data rerr Hr Hlen) in H. discriminate H.
Qed.

Lemma Dial_reply_error_read c1 c2 w :
  conn_Read c1 = conn_Read c2 ->
  snd (fst (Dial_reply c1 w)) = snd (fst (Dial_reply c2 w)).
Proof.
  intros Hr. unfold Dial_reply, call_Read. rewrite Hr.
  destruct (conn_Read c2) as [data rerr]. run.
  destruct rerr as [[] |]; try reflexivity;
    match goal with |- context [Z.eqb ?a ?b] => destruct (Z.eqb a b) end;
    try reflexivity;
    match goal with |- context [nth 1 ?l x00] => destruct (nth 1 l x00) end;
    reflexivity.
Qed.

(** X12. [Dial] returns no error exactly when every step went through: the
    network is "tcp" or "tcp4", the upstream dialer gave a connection, the
    request was built, the write reported no error and at least 8 bytes, the
    read delivered 8 bytes with no error other than [io.EOF], and the second
    byte of the reply is 0x5A. *)
Theorem Dial_succeeds_iff s network addr w :
  snd (fst (Dial s network addr w)) = None
  <->
  (network = "tcp" \/ network = "tcp4")
  /\ exists c req n,
       Dialer_Dial (dialer s) network (Host (url s)) = inl c
       /\ fst (prepareRequest s addr w) = (req, None)
       /\ conn_Write c req = (n, None)
       /\ minRequestLen <= n
       /\ (snd (conn_Read c) = None \/ snd (conn_Read c) = Some io_EOF)
       /\ (8 <= List.length (fst (conn_Read c)))%nat
       /\ nth 1 (fst (conn_Read c)) x00 = accessGranted.
Proof.
  split.
  - intros H.
    destruct (negb (String.eqb network "tcp") && negb (String.eqb network "tcp4")) eqn:Hn.
    { unfold Dial in H. rewrite Hn in H. discriminate H. }
    assert (Hn' : network = "tcp" \/ network = "tcp4").
    { apply andb_false_iff in Hn.
      destruct Hn as [E | E]; apply negb_false_iff, String.eqb_eq in E; tauto. }
    split; [exact Hn' |].
    destruct (Dialer_Dial (dialer s) network (Host (url s))) as [c | e] eqn:Hd.
    2:{ rewrite (Dial_dialer_error_aux s network addr w e Hn' Hd) in H.
        discriminate H. }
    rewrite (Dial_connected s network addr w c Hn' Hd) in H. cbn [fst] in H.
    destruct (prepareRequest s addr w) as [[req [e' |]] tr] eqn:Hq.
    { unfold Dial_request in H. revert H. run. rewrite Hq. run. discriminate. }
    destruct (conn_Write c req) as [n [ew |]] eqn:Hw.
    { unfold Dial_request, call_Write in H. revert H. run. rewrite Hq. run.
      rewrite Hw. run. discriminate. }
    rewrite (Dial_request_written s c addr w req n) in H;
      [| now rewrite Hq | exact Hw].
    destruct (n <? minRequestLen) eqn:Hlt; cbn [fst snd] in H; [discriminate H |].
    apply Z.ltb_ge in Hlt.
    exists c, req, n. repeat split; try assumption; try reflexivity;
      apply (Dial_reply_granted c w H).
  - intros [Hn (c & req & n & Hd & Hp & Hw & Hmin & Herr & Hlen & Hst)].
    rewrite (Dial_connected s network addr w c Hn Hd). cbn [fst].
    rewrite (Dial_request_written s c addr w req n Hp Hw).
    apply Z.ltb_ge in Hmin. rewrite Hmin. cbn [fst].
    rewrite (Dial_reply_full c w (fst (conn_Read c)) (snd (conn_Read c)));
      [| now destruct (conn_Read c) | exact Hlen | exact Herr].
    cbn [snd]. now rewrite Hst.
Qed.

(** X13. The error of [Dial] does not depend on what [Close] answers, nor on
    which connection it is: two handshakes through the same proxy URL whose
    connections answer the write and the read alike end with the same error,
    or both with none. *)
Theorem Dial_error_ignores_Close s1 s2 network addr w c1 c2 :
  url s1 = url s2 ->
  network = "tcp" \/ network = "tcp4" ->
  Dialer_Dial (dialer s1) network (Host (url s1)) = inl c1 ->
  Dialer_Dial (dialer s2) network (Host (url s2)) = inl c2 ->
  (forall p, conn_Write c1 p = conn_Write c2 p) ->
  conn_Read c1 = conn_Read c2 ->
  snd (fst (Dial s1 network addr w)) = snd (fst (Dial s2 network addr w)).
Proof.
  intros Hu Hn Hd1 Hd2 Hw Hr.
  rewrite (Dial_connected s1 network addr w c1 Hn Hd1).
  rewrite (Dial_connected s2 network addr w c2 Hn Hd2). cbn [fst].
  assert (Hprep : prepareRequest s2 addr w = prepareRequest s1 addr w).
  { assert (Ha : isSocks4a s2 = isSocks4a s1) by (unfold isSocks4a; now rewrite Hu).
    destruct (parseAddr s1 addr) as [[host port] perr] eqn:Hp.
    assert (Hp2 : parseAddr s2 addr = (host, port, perr)) by exact Hp.
    destruct (isSocks4a s1) eqn:Ha1.
    - now rewrite (prepareRequest_socks4a _ _ _ _ _ _ Hp Ha1),
        (prepareRequest_socks4a _ _ _ _ _ _ Hp2 Ha).
    - now rewrite (prepareRequest_socks4 _ _ _ _ _ _ Hp Ha1),
        (prepareRequest_socks4 _ _ _ _ _ _ Hp2 Ha). }
  destruct (prepareRequest s1 addr w) as [[req [e' |]] tr] eqn:Hq.
  - unfold Dial_request. run. rewrite Hprep, Hq. run. reflexivity.
  - destruct (conn_Write c1 req) as [n [ew |]] eqn:Hw1.
    + unfold Dial_request, call_Write. run. rewrite Hprep, Hq. run.
      rewrite <- Hw, Hw1. run. reflexivity.
    + rewrite (Dial_request_written s1 c1 addr w req n);
        [| now rewrite Hq | exact Hw1].
      rewrite (Dial_request_written s2 c2 addr w req n);
        [| now rewrite Hprep | now rewrite <- Hw].
      destruct (n <? minRequestLen); cbn [fst snd]; [reflexivity |].
      apply Dial_reply_error_read. exact Hr.
Qed.

Lemma Dial_error_ignores_Close_witness :
  snd (fst (Dial (mockSocks "socks4a" (mockConn (reply x5b) None))
              "tcp" "example.com:80" mockWorld))
  = snd (fst (Dial (mockSocks "socks4a"
                      {| conn_id := 7;
                         conn_Write := fun p => (Z.of_nat (List.length p), None);
                         conn_Read := (reply x5b, None);
                         conn_Close := Some (Foreign "already closed") |})
              "tcp" "example.com:80" mockWorld)).
Proof.
  refine (Dial_error_ignores_Close _ _ "tcp" "example.com:80" mockWorld
            (mockConn (reply x5b) None)
            {| conn_id := 7;
               conn_Write := fun p => (Z.of_nat (List.length p), None);
               conn_Read := (reply x5b, None);
               conn_Close := Some (Foreign "already closed") |}
            _ _ _ _ _ _).
  - reflexivity.
  - left; reflexivity.
  - reflexivity.
  - reflexivity.
  - intros p; reflexivity.
  - reflexivity.
Defined.

(** X14. Every error that [Dial] returns is built on one of seven constants:
    [ErrWrongNetwork], [ErrDialFailed], [ErrHostUnknown], [ErrIO],
    [ErrIdentRequired], [ErrConnRejected] or [ErrInvalidResponse]. *)
Theorem Dial_error_taxonomy s network addr w e :
  snd (fst (Dial s network addr w)) = Some e ->
  typedErrors.Is e ErrWrongNetwork \/ typedErrors.Is e ErrDialFailed
  \/ typedErrors.Is e ErrHostUnknown \/ typedErrors.Is e ErrIO
  \/ typedErrors.Is e ErrIdentRequired \/ typedErrors.Is e ErrConnRejected
  \/ typedErrors.Is e ErrInvalidResponse.
Proof.
  intros H. apply Dial_error_kinds in H. unfold typedErrors.Is.
  cbn in H. intuition (symmetry; assumption).
Qed.

Lemma Dial_error_taxonomy_witness :
  typedErrors.Is ErrWrongNetwork ErrWrongNetwork
  \/ typedErrors.Is ErrWrongNetwork ErrDialFailed
  \/ typedErrors.Is ErrWrongNetwork ErrHostUnknown
  \/ typedErrors.Is ErrWrongNetwork ErrIO
  \/ typedErrors.Is ErrWrongNetwork ErrIdentRequired
  \/ typedErrors.Is ErrWrongNetwork ErrConnRejected
  \/ typedErrors.Is ErrWrongNetwork ErrInvalidResponse.
Proof.
  apply (Dial_error_taxonomy (mockSocks "socks4a" grantingConn) "udp"
           "example.com:80" mockWorld ErrWrongNetwork).
  reflexivity.
Defined.

(** ** The registered schemes *)

(** X15. After [init], whatever was registered before, the schemes "socks4"
    and "socks4a" each have a dialer type that never fails and keeps the URL
    and the upstream dialer it is given: the dialer built for a URL is in
    socks4a mode exactly when that URL's scheme is "socks4a", and its first
    call is the dial of the URL's host. Every other scheme is left as it
    was. *)
Theorem init_registers m :
  (forall scheme, scheme = "socks4" \/ scheme = "socks4a" ->
     exists f,
       lookupScheme (init m) scheme = Some f
       /\ forall u d,
            f u d = ({| url := u; dialer := d |}, None)
            /\ isSocks4a (fst (f u d)) = String.eqb (Scheme u) "socks4a"
            /\ forall network addr w,
                 network = "tcp" \/ network = "tcp4" ->
                 exists tr,
                   snd (Dial (fst (f u d)) network addr w)
                   = EvDial network (Host u) :: tr)
  /\ (forall scheme, scheme <> "socks4" -> scheme <> "socks4a" ->
        lookupScheme (init m) scheme = lookupScheme m scheme).
Proof.
  split.
  - intros scheme Hs.
    exists (fun u d => ({| url := u; dialer := d |}, None)).
    split; [destruct Hs as [-> | ->]; reflexivity |].
    intros u d. split; [reflexivity |]. split; [reflexivity |].
    intros network addr w Hn. cbn [fst].
    destruct (Dialer_Dial d network (Host u)) as [c | e] eqn:Hd.
    + eexists.
      now rewrite (Dial_connected {| url := u; dialer := d |} network addr w c Hn Hd).
    + eexists.
      now rewrite (Dial_dialer_error_aux {| url := u; dialer := d |} network addr w e Hn Hd).
  - intros scheme H4 H4a. unfold init, RegisterDialerType. cbn [lookupScheme].
    assert (E1 : String.eqb "socks4a" scheme = false)
      by (apply String.eqb_neq; congruence).
    assert (E2 : String.eqb "socks4" scheme = false)
      by (apply String.eqb_neq; congruence).
    now rewrite E1, E2.
Qed.
